(** * Booking validation, pricing and review eligibility of alx_travel_app

    A shallow embedding of [listings/models.py] and [listings/serializers.py]
    together with the properties of the booking and review serializers.

    Database tables are finite maps from primary key to row, a serializer's
    [data] dictionary is a record of optional entries ([None] is what
    [data.get(key)] returns for an absent key), and raised exceptions are the
    [Raise] case of a small error monad. *)

From stdpp Require Import gmap strings fin_maps.

Open Scope string_scope.
Open Scope Z_scope.

(** ** Dates

    A [datetime.date] is represented by its proleptic Gregorian ordinal
    ([date.toordinal()]): comparison of dates is comparison of ordinals and
    [(d2 - d1).days] is the difference of the ordinals. *)
Module PyDate.

Definition MINORDINAL : Z := 1.
Definition MAXORDINAL : Z := 3652059.

Definition is_leap (y : Z) : bool :=
  (y mod 4 =? 0) && (negb (y mod 100 =? 0) || (y mod 400 =? 0)).

Definition days_before_year (year : Z) : Z :=
  let y := year - 1 in
  y * 365 + y / 4 - y / 100 + y / 400.

Definition DAYS_BEFORE_MONTH : list Z :=
  [0; 31; 59; 90; 120; 151; 181; 212; 243; 273; 304; 334].

Definition days_before_month (year month : Z) : Z :=
  nth (Z.to_nat (month - 1)) DAYS_BEFORE_MONTH 0
  + (if (2 <? month) && is_leap year then 1 else 0).

(** [date(year, month, day).toordinal()] *)
Definition ymd2ord (year month day : Z) : Z :=
  days_before_year year + days_before_month year month + day.

(** A value that is the ordinal of some date between 0001-01-01 and
    9999-12-31. *)
Definition valid (d : Z) : Prop := MINORDINAL ≤ d ≤ MAXORDINAL.

(** [(d2 - d1).days] *)
Definition days_between (d2 d1 : Z) : Z := d2 - d1.

(** [d + timedelta(days=n)]; [None] stands for the [OverflowError] raised
    when the result is not a date. *)
Definition add_days (d n : Z) : option Z :=
  let o := d + n in
  if (0 <? o) && (o <=? MAXORDINAL) then Some o else None.

End PyDate.

(** ** Decimals

    A finite [decimal.Decimal]: sign, coefficient and exponent, the value
    being [(-1)^sign * coefficient * 10^exponent].  Arithmetic follows the
    default context: 28 significant digits, rounding half to even. *)
Module Decimal.

Record t := mk { sign : bool; coefficient : N; exponent : Z }.

Global Instance t_eq_dec : EqDecision t.
Proof. solve_decision. Defined.

Definition prec : Z := 28.

Fixpoint ndigits_fuel (fuel : nat) (n : N) : Z :=
  match fuel with
  | O => 0
  | S fuel' => if (n <? 10)%N then 1 else 1 + ndigits_fuel fuel' (n / 10)%N
  end.

(** [len(str(n))]; the binary length of [n] bounds the decimal one. *)
Definition ndigits (n : N) : Z :=
  ndigits_fuel (S (N.to_nat (N.log2 n))) n.

(** Drop the last [k] digits of [n], rounding half to even. *)
Definition round_half_even (n : N) (k : Z) : N :=
  let p := (10 ^ Z.to_N k)%N in
  let q := (n / p)%N in
  let r := (n mod p)%N in
  let half := (p / 2)%N in
  if (half <? r)%N || ((r =? half)%N && N.odd q) then (q + 1)%N else q.

(** [Decimal._fix]: bring a result back to the context precision. *)
Definition fix_ (d : t) : t :=
  let len := ndigits (coefficient d) in
  if len <=? prec then d
  else
    let k := len - prec in
    let q := round_half_even (coefficient d) k in
    if prec <? ndigits q
    then mk (sign d) (q / 10)%N (exponent d + k + 1)
    else mk (sign d) q (exponent d + k).

(** [Decimal(n)] for an [int] *)
Definition of_int (n : Z) : t := mk (n <? 0) (Z.abs_N n) 0.

(** [a * b] *)
Definition mul (a b : t) : t :=
  fix_ (mk (xorb (sign a) (sign b))
           (coefficient a * coefficient b)%N
           (exponent a + exponent b)).

(** [a * n] where [n] is an [int], converted first *)
Definition mul_int (a : t) (n : Z) : t := mul a (of_int n).

(** The values a [DecimalField(max_digits, decimal_places)] column holds. *)
Definition field (max_digits decimal_places : Z) (d : t) : Prop :=
  exponent d = - decimal_places ∧ (Z.of_N (coefficient d) < 10 ^ max_digits).

(** [bool(d)] is false exactly when the coefficient is zero. *)
Definition is_zero (d : t) : bool := (coefficient d =? 0)%N.

(** [d <= 0] *)
Definition le_zero (d : t) : bool := is_zero d || sign d.

End Decimal.

(** ** Exceptions and the error monad *)

(** The validation failures.  Each constructor stands for one [raise
    serializers.ValidationError(...)] site; [detail] gives its message (the
    capacity message is printed with the two numbers filled in).
    [DuplicateReview] belongs to the taxonomy but no site raises it. *)
Inductive ValidationError :=
  | InvalidDateRange
  | PastCheckInDate
  | ListingUnavailable
  | GuestCapacityExceeded
  | DateRangeConflict
  | ListingNotFound
  | InvalidRating
  | DuplicateReview
  | NotBookingOwner
  | BookingNotCompleted
  | BookingNotFound.

Definition detail (e : ValidationError) : string :=
  match e with
  | InvalidDateRange => "Check-out date must be after check-in date."
  | PastCheckInDate => "Check-in date cannot be in the past."
  | ListingUnavailable => "This listing is not available for booking."
  | GuestCapacityExceeded => "Number of guests exceeds maximum allowed."
  | DateRangeConflict =>
      "These dates are not available. Please choose different dates."
  | ListingNotFound => "Invalid listing ID."
  | InvalidRating => "Rating must be between 1 and 5."
  | DuplicateReview => ""
  | NotBookingOwner => "You can only review bookings you made."
  | BookingNotCompleted => "You can only review completed bookings."
  | BookingNotFound => "Invalid booking ID."
  end.

(** The codes of the errors of field-level validation: a missing required
    field, a number under the field's [min_value] or over its [max_value],
    an empty string where [allow_blank] is false. *)
Inductive ErrorCode := Required | MinValue | MaxValue | Blank.

Global Instance ErrorCode_eq_dec : EqDecision ErrorCode.
Proof. solve_decision. Defined.

(** [FieldErrors] is the [ValidationError] that [to_internal_value] raises:
    the errors of all fields, each under the name of its field. *)
Inductive Exception :=
  | ValidationErr (e : ValidationError)
  | FieldErrors (errors : list (string * ErrorCode))
  | KeyError (key : string)
  | ValueError
  | IntegrityError.

Inductive result (A : Type) :=
  | Ok (a : A)
  | Raise (e : Exception).
Arguments Ok {A} a.
Arguments Raise {A} e.

Global Instance result_ret : MRet result := @Ok.
Global Instance result_bind : MBind result := λ A B f m,
  match m with
  | Ok a => f a
  | Raise e => Raise e
  end.

Definition raise {A} (e : ValidationError) : result A := Raise (ValidationErr e).

(** [d[key]] on a dictionary entry: [KeyError] when absent. *)
Definition getitem {A} (key : string) (entry : option A) : result A :=
  match entry with
  | Some v => Ok v
  | None => Raise (KeyError key)
  end.

(** A column declared without [null=True]: the insert fails when no value
    is given. *)
Definition not_null {A} (entry : option A) : result A :=
  match entry with
  | Some v => Ok v
  | None => Raise IntegrityError
  end.

(** Field-level validation of one entry of a payload.  An absent entry of
    a required field is an error unless the serializer is partial; the
    validators of a field run on the entry when there is one. *)
Definition check_required {A} (partial : bool) (name : string)
    (entry : option A) : list (string * ErrorCode) :=
  match entry with
  | Some _ => []
  | None => if partial then [] else [(name, Required)]
  end.

Definition check_min_value (name : string) (limit : Z) (entry : option Z)
    : list (string * ErrorCode) :=
  match entry with
  | Some n => if n <? limit then [(name, MinValue)] else []
  | None => []
  end.

Definition check_max_value (name : string) (limit : Z) (entry : option Z)
    : list (string * ErrorCode) :=
  match entry with
  | Some n => if limit <? n then [(name, MaxValue)] else []
  | None => []
  end.

Definition check_blank (name : string) (entry : option string)
    : list (string * ErrorCode) :=
  match entry with
  | Some s => if bool_decide (s = "") then [(name, Blank)] else []
  | None => []
  end.

(** Truth value of an optional integer as Python's [if x] sees it: [None]
    and [0] are false. *)
Definition truthy_int (x : option Z) : bool :=
  match x with
  | Some n => negb (n =? 0)
  | None => false
  end.

(** ** Models *)

(** [request.user]: a stored user, or the anonymous one. *)
Inductive user :=
  | AnonymousUser
  | User (id : N).

Global Instance user_eq_dec : EqDecision user.
Proof. solve_decision. Defined.

(** [self.context.get('request')] is [None] or a request; [req_user] is
    [None] when the request has no [user] attribute. *)
Record Request := { req_user : option user }.

Module Listing.
(** The columns the serializers read; the key of the table is
    [listing_id]. *)
Record t := mk {
  price_per_night : Decimal.t;
  max_guests : Z;
  host : N;
  is_available : bool
}.
End Listing.

Inductive Status := pending | confirmed | cancelled | completed.

Global Instance Status_eq_dec : EqDecision Status.
Proof. solve_decision. Defined.

Module Booking.
Definition STATUS_CHOICES : list Status :=
  [pending; confirmed; cancelled; completed].

Definition default_status : Status := pending.

(** [listing] and [guest] hold the foreign keys; the key of the table is
    [booking_id]. *)
Record t := mk {
  listing : N;
  guest : N;
  check_in_date : Z;
  check_out_date : Z;
  number_of_guests : Z;
  total_price : Decimal.t;
  status : Status;
  special_requests : option string
}.

Definition duration_nights (b : t) : Z :=
  PyDate.days_between (check_out_date b) (check_in_date b).
(** The two failures of [clean], with the messages "Check-out date must be
    after check-in date." and "Number of guests (n) exceeds maximum allowed
    (m)." *)
Inductive CleanError :=
  | CheckOutNotAfterCheckIn
  | GuestsExceedMaximum.

(** [Booking.clean]; [l] is [self.listing], the row the foreign key points
    to. *)
Definition clean (l : Listing.t) (b : t) : CleanError + unit :=
  if check_out_date b <=? check_in_date b then inl CheckOutNotAfterCheckIn
  else if negb (number_of_guests b =? 0)
          && (number_of_guests b >? Listing.max_guests l)
  then inl GuestsExceedMaximum
  else inr tt.

End Booking.

Module Review.
Record t := mk {
  listing : N;
  reviewer : N;
  booking : option N;
  rating : Z;
  comment : string
}.

Definition unique_together (r1 r2 : t) : Prop :=
  listing r1 = listing r2 ∧ reviewer r1 = reviewer r2.
End Review.

(** The three tables. *)
Record DB := mkDB {
  listings : gmap N Listing.t;
  bookings : gmap N Booking.t;
  reviews : gmap N Review.t
}.

(** [queryset.exists()] *)
Definition qs_exists {A} (q : gmap N A) : bool := bool_decide (q ≠ ∅).

(** What the bookings table asks of a row that is written: the listing of
    its foreign key is stored, and [check_out_after_check_in] of
    [Booking.Meta.constraints] holds.  Users are not a table here: a key in
    [User] is that of a stored user.  The sign check of the column
    [number_of_guests] is not among them: field-level validation lets no
    count under 1 through. *)
Definition booking_constraints (db : DB) (row : Booking.t) : bool :=
  bool_decide (is_Some (listings db !! Booking.listing row))
  && (Booking.check_in_date row <? Booking.check_out_date row).

(** What the reviews table asks of a row that is written: the listing and,
    when there is one, the booking of its foreign keys are stored. *)
Definition review_constraints (db : DB) (row : Review.t) : bool :=
  bool_decide (is_Some (listings db !! Review.listing row))
  && match Review.booking row with
     | Some bid => bool_decide (is_Some (bookings db !! bid))
     | None => true
     end.

(** ** BookingSerializer *)
Module BookingSerializer.

Definition Meta_fields : list string :=
  ["booking_id"; "listing"; "listing_id"; "guest"; "check_in_date";
   "check_out_date"; "number_of_guests"; "total_price"; "status";
   "created_at"; "updated_at"; "special_requests"; "duration_nights"].

Definition Meta_read_only_fields : list string :=
  ["booking_id"; "created_at"; "updated_at"; "guest"; "total_price"; "status"].

(** The fields declared on the class itself with [read_only=True], and the
    method field. *)
Definition declared_read_only : list string :=
  ["listing"; "guest"; "duration_nights"].

Definition writable (name : string) : bool :=
  bool_decide (name ∈ Meta_fields)
  && negb (bool_decide (name ∈ Meta_read_only_fields))
  && negb (bool_decide (name ∈ declared_read_only)).

(** The dictionary the serializer works on: the client's payload, then
    [validated_data].  [listing] is the entry [validate] adds, [guest] and
    [total_price] the ones [create] adds. *)
Record Data := mkData {
  listing_id : option N;
  check_in_date : option Z;
  check_out_date : option Z;
  number_of_guests : option Z;
  special_requests : option string;
  total_price : option Decimal.t;
  status : option Status;
  guest : option user;
  listing : option Listing.t
}.

Definition set_listing (l : Listing.t) (d : Data) : Data :=
  mkData (listing_id d) (check_in_date d) (check_out_date d)
    (number_of_guests d) (special_requests d) (total_price d) (status d)
    (guest d) (Some l).

Definition set_guest (u : user) (d : Data) : Data :=
  mkData (listing_id d) (check_in_date d) (check_out_date d)
    (number_of_guests d) (special_requests d) (total_price d) (status d)
    (Some u) (listing d).

Definition set_total_price (p : Decimal.t) (d : Data) : Data :=
  mkData (listing_id d) (check_in_date d) (check_out_date d)
    (number_of_guests d) (special_requests d) (Some p) (status d)
    (guest d) (listing d).

(** An entry of the payload reaches [validated_data] only under a writable
    field name. *)
Definition accept {A} (name : string) (entry : option A) : option A :=
  if writable name then entry else None.

Definition writable_entries (payload : Data) : Data :=
  {| listing_id := accept "listing_id" (listing_id payload);
     check_in_date := accept "check_in_date" (check_in_date payload);
     check_out_date := accept "check_out_date" (check_out_date payload);
     number_of_guests := accept "number_of_guests" (number_of_guests payload);
     special_requests := accept "special_requests" (special_requests payload);
     total_price := accept "total_price" (total_price payload);
     status := accept "status" (status payload);
     guest := accept "guest" (guest payload);
     listing := accept "listing" (listing payload) |}.

(** The errors of the writable fields, in the order of [Meta.fields].  The
    listing, the two dates and the number of guests are required;
    [number_of_guests] carries [MinValueValidator(1)].  A payload holds
    parsed values, so no entry is of the wrong type.  The upper bound that
    a database backend puts on an integer column depends on the backend
    and is left out. *)
Definition field_errors (partial : bool) (payload : Data)
    : list (string * ErrorCode) :=
  check_required partial "listing_id" (listing_id payload)
  ++ check_required partial "check_in_date" (check_in_date payload)
  ++ check_required partial "check_out_date" (check_out_date payload)
  ++ check_required partial "number_of_guests" (number_of_guests payload)
  ++ check_min_value "number_of_guests" 1 (number_of_guests payload).

(** [to_internal_value]: field-level validation of the payload, which
    yields the entries under writable names or raises the errors of all
    fields; [partial] is the [partial] flag of the serializer. *)
Definition to_internal_value (partial : bool) (payload : Data)
    : result Data :=
  match field_errors partial payload with
  | [] => Ok (writable_entries payload)
  | errors => Raise (FieldErrors errors)
  end.

(** The query of [validate]:
    [Booking.objects.filter(listing=listing, status__in=['confirmed',
    'pending'], check_in_date__lt=check_out_date,
    check_out_date__gt=check_in_date)], followed by
    [.exclude(booking_id=self.instance.booking_id)] when updating. *)
Definition overlapping_bookings (db : DB) (instance : option (N * Booking.t))
    (lid : N) (check_in check_out : Z) : gmap N Booking.t :=
  let overlapping :=
    filter (λ kb : N * Booking.t,
              Booking.listing kb.2 = lid
              ∧ Booking.status kb.2 ∈ [confirmed; pending]
              ∧ Booking.check_in_date kb.2 < check_out
              ∧ Booking.check_out_date kb.2 > check_in)
           (bookings db) in
  match instance with
  | Some inst => filter (λ kb : N * Booking.t, kb.1 ≠ inst.1) overlapping
  | None => overlapping
  end.

Global Arguments overlapping_bookings : simpl never.

Definition validate_dates (today : Z) (data : Data) : result unit :=
  match check_in_date data, check_out_date data with
  | Some check_in, Some check_out =>
      if check_out <=? check_in then raise InvalidDateRange
      else if check_in <? today then raise PastCheckInDate
      else Ok tt
  | _, _ => Ok tt
  end.

(** [BookingSerializer.validate]; [today] is [date.today()] and [instance]
    is [self.instance]. *)
Definition validate (db : DB) (today : Z) (instance : option (N * Booking.t))
    (data : Data) : result Data :=
  validate_dates today data;;
  match listing_id data with
  | Some lid =>
      match listings db !! lid with
      | None => raise ListingNotFound
      | Some l =>
          let data := set_listing l data in
          if negb (Listing.is_available l) then raise ListingUnavailable
          else if truthy_int (number_of_guests data)
                  && (default 0 (number_of_guests data) >? Listing.max_guests l)
          then raise GuestCapacityExceeded
          else
            match check_in_date data, check_out_date data with
            | Some check_in, Some check_out =>
                if qs_exists (overlapping_bookings db instance lid
                                check_in check_out)
                then raise DateRangeConflict
                else Ok data
            | _, _ => Ok data
            end
      end
  | None => Ok data
  end.

(** Assigning [request.user] to a foreign key: only a stored user can be
    assigned. *)
Definition user_pk (u : user) : result N :=
  match u with
  | User id => Ok id
  | AnonymousUser => Raise ValueError
  end.

(** [Booking.objects.create] applied to the entries of [validated_data];
    [new_id] is the value drawn by [uuid.uuid4].  The insert is refused
    when the row breaks a constraint of the table or the key is taken. *)
Definition objects_create (db : DB) (new_id : N) (validated_data : Data)
    : result (DB * Booking.t) :=
  u ← not_null (guest validated_data);
  g ← user_pk u;
  lid ← not_null (listing_id validated_data);
  check_in ← not_null (check_in_date validated_data);
  check_out ← not_null (check_out_date validated_data);
  n ← not_null (number_of_guests validated_data);
  price ← not_null (total_price validated_data);
  let row :=
    Booking.mk lid g check_in check_out n price
      (default Booking.default_status (status validated_data))
      (special_requests validated_data) in
  if negb (booking_constraints db row) then Raise IntegrityError
  else
    match bookings db !! new_id with
    | Some _ => Raise IntegrityError
    | None =>
        Ok (mkDB (listings db) (<[new_id := row]> (bookings db)) (reviews db),
            row)
    end.

(** [BookingSerializer.create]; [context] is [self.context.get('request')]. *)
Definition create (db : DB) (context : option Request) (new_id : N)
    (validated_data : Data) : result (DB * Booking.t) :=
  let validated_data :=
    match context with
    | Some request =>
        match req_user request with
        | Some u => set_guest u validated_data
        | None => validated_data
        end
    | None => validated_data
    end in
  l ← getitem "listing" (listing validated_data);
  check_in ← getitem "check_in_date" (check_in_date validated_data);
  check_out ← getitem "check_out_date" (check_out_date validated_data);
  let nights := PyDate.days_between check_out check_in in
  let validated_data :=
    set_total_price (Decimal.mul_int (Listing.price_per_night l) nights)
      validated_data in
  objects_create db new_id validated_data.

(** The inherited [update]: every entry of [validated_data] is assigned to
    the instance, which is then saved under its key; the write is refused
    when the row breaks a constraint of the table. *)
Definition update (db : DB) (instance : N * Booking.t) (validated_data : Data)
    : result (DB * Booking.t) :=
  let old := instance.2 in
  g ← match guest validated_data with
      | Some u => user_pk u
      | None => Ok (Booking.guest old)
      end;
  let row :=
    Booking.mk
      (default (Booking.listing old) (listing_id validated_data))
      g
      (default (Booking.check_in_date old) (check_in_date validated_data))
      (default (Booking.check_out_date old) (check_out_date validated_data))
      (default (Booking.number_of_guests old) (number_of_guests validated_data))
      (default (Booking.total_price old) (total_price validated_data))
      (default (Booking.status old) (status validated_data))
      (match special_requests validated_data with
       | Some s => Some s
       | None => Booking.special_requests old
       end) in
  if negb (booking_constraints db row) then Raise IntegrityError
  else
    Ok (mkDB (listings db) (<[instance.1 := row]> (bookings db)) (reviews db),
        row).

(** [run_validation]: field-level validation, then [validate]. *)
Definition run_validation (db : DB) (today : Z) (partial : bool)
    (instance : option (N * Booking.t)) (payload : Data) : result Data :=
  data ← to_internal_value partial payload;
  validate db today instance data.

(** [serializer.is_valid()] followed by [serializer.save()]: a creation when
    there is no instance, an update otherwise. *)
Definition save (db : DB) (today : Z) (context : option Request)
    (partial : bool) (instance : option (N * Booking.t)) (new_id : N)
    (payload : Data) : result (DB * Booking.t) :=
  validated_data ← run_validation db today partial instance payload;
  match instance with
  | None => create db context new_id validated_data
  | Some inst => update db inst validated_data
  end.

End BookingSerializer.

(** ** ReviewSerializer *)
Module ReviewSerializer.

(** [booking] and [listing] are the entries [validate] adds, [reviewer] the
    one [create] adds. *)
Record Data := mkData {
  listing_id : option N;
  booking_id : option N;
  rating : option Z;
  comment : option string;
  listing : option Listing.t;
  booking : option Booking.t;
  reviewer : option user
}.

Definition set_listing (l : Listing.t) (d : Data) : Data :=
  mkData (listing_id d) (booking_id d) (rating d) (comment d) (Some l)
    (booking d) (reviewer d).

Definition set_booking (b : Booking.t) (d : Data) : Data :=
  mkData (listing_id d) (booking_id d) (rating d) (comment d) (listing d)
    (Some b) (reviewer d).

Definition set_reviewer (u : user) (d : Data) : Data :=
  mkData (listing_id d) (booking_id d) (rating d) (comment d) (listing d)
    (booking d) (Some u).

Definition Meta_fields : list string :=
  ["review_id"; "listing"; "listing_id"; "reviewer"; "booking_id"; "rating";
   "comment"; "created_at"; "updated_at"].

Definition Meta_read_only_fields : list string :=
  ["review_id"; "created_at"; "updated_at"; "reviewer"].

(** The fields declared on the class itself with [read_only=True]. *)
Definition declared_read_only : list string := ["listing"; "reviewer"].

Definition writable (name : string) : bool :=
  bool_decide (name ∈ Meta_fields)
  && negb (bool_decide (name ∈ Meta_read_only_fields))
  && negb (bool_decide (name ∈ declared_read_only)).

Definition accept {A} (name : string) (entry : option A) : option A :=
  if writable name then entry else None.

Definition writable_entries (payload : Data) : Data :=
  {| listing_id := accept "listing_id" (listing_id payload);
     booking_id := accept "booking_id" (booking_id payload);
     rating := accept "rating" (rating payload);
     comment := accept "comment" (comment payload);
     listing := accept "listing" (listing payload);
     booking := accept "booking" (booking payload);
     reviewer := accept "reviewer" (reviewer payload) |}.

(** The errors of the writable fields, in the order of [Meta.fields].  The
    listing, the rating and the comment are required, the booking is not;
    [rating] carries [MinValueValidator(1)] and [MaxValueValidator(5)], and
    the comment may not be blank.  A payload holds parsed values: the
    comment is the string as the field yields it, with the whitespace
    around it removed. *)
Definition field_errors (partial : bool) (payload : Data)
    : list (string * ErrorCode) :=
  check_required partial "listing_id" (listing_id payload)
  ++ check_required partial "rating" (rating payload)
  ++ check_min_value "rating" 1 (rating payload)
  ++ check_max_value "rating" 5 (rating payload)
  ++ check_required partial "comment" (comment payload)
  ++ check_blank "comment" (comment payload).

(** [to_internal_value]: field-level validation of the payload. *)
Definition to_internal_value (partial : bool) (payload : Data)
    : result Data :=
  match field_errors partial payload with
  | [] => Ok (writable_entries payload)
  | errors => Raise (FieldErrors errors)
  end.

Definition validate_rating (data : Data) : result unit :=
  if truthy_int (rating data)
     && ((default 0 (rating data) <? 1) || (default 0 (rating data) >? 5))
  then raise InvalidRating
  else Ok tt.

Definition validate_listing (db : DB) (data : Data) : result Data :=
  match listing_id data with
  | Some lid =>
      match listings db !! lid with
      | Some l => Ok (set_listing l data)
      | None => raise ListingNotFound
      end
  | None => Ok data
  end.

(** The two checks guarded by [if request and hasattr(request, 'user')]. *)
Definition validate_owner (context : option Request) (b : Booking.t)
    : result unit :=
  match context with
  | Some request =>
      match req_user request with
      | Some u =>
          if bool_decide (User (Booking.guest b) ≠ u)
          then raise NotBookingOwner
          else if bool_decide (Booking.status b ≠ completed)
          then raise BookingNotCompleted
          else Ok tt
      | None => Ok tt
      end
  | None => Ok tt
  end.

(** [ReviewSerializer.validate], which [ReviewCreateSerializer.validate]
    calls as it is. *)
Definition validate (db : DB) (context : option Request) (data : Data)
    : result Data :=
  validate_rating data;;
  data ← validate_listing db data;
  match booking_id data with
  | Some bid =>
      match bookings db !! bid with
      | None => raise BookingNotFound
      | Some b =>
          validate_owner context b;;
          Ok (set_booking b data)
      end
  | None => Ok data
  end.

(** [run_validation]: field-level validation, then [validate]. *)
Definition run_validation (db : DB) (context : option Request)
    (partial : bool) (payload : Data) : result Data :=
  data ← to_internal_value partial payload;
  validate db context data.

Definition reviewer_pk (entry : option user) : result N :=
  match entry with
  | Some (User id) => Ok id
  | Some AnonymousUser => Raise ValueError
  | None => Raise IntegrityError
  end.

Global Instance unique_together_dec r1 r2 :
  Decision (Review.unique_together r1 r2).
Proof. unfold Review.unique_together. apply _. Defined.

(** [Review.objects.create] applied to the entries of [validated_data]; the
    insert is refused when a foreign key names a row that is not stored,
    when a stored review has the same [listing] and [reviewer]
    ([unique_together]), or when the key is taken. *)
Definition objects_create (db : DB) (new_id : N) (validated_data : Data)
    : result (DB * Review.t) :=
  r ← reviewer_pk (reviewer validated_data);
  lid ← not_null (listing_id validated_data);
  stars ← not_null (rating validated_data);
  let row :=
    Review.mk lid r (booking_id validated_data) stars
      (default "" (comment validated_data)) in
  if negb (review_constraints db row) then Raise IntegrityError
  else if
    qs_exists (filter (λ kr : N * Review.t, Review.unique_together kr.2 row)
                      (reviews db))
  then Raise IntegrityError
  else
    match reviews db !! new_id with
    | Some _ => Raise IntegrityError
    | None =>
        Ok (mkDB (listings db) (bookings db) (<[new_id := row]> (reviews db)),
            row)
    end.

(** [ReviewSerializer.create] *)
Definition create (db : DB) (context : option Request) (new_id : N)
    (validated_data : Data) : result (DB * Review.t) :=
  let validated_data :=
    match context with
    | Some request =>
        match req_user request with
        | Some u => set_reviewer u validated_data
        | None => validated_data
        end
    | None => validated_data
    end in
  objects_create db new_id validated_data.

End ReviewSerializer.

(** ** ListingSerializer *)
Module ListingSerializer.

Record Data := mkData {
  title : option string;
  description : option string;
  location : option string;
  price_per_night : option Decimal.t;
  number_of_bedrooms : option Z;
  number_of_bathrooms : option Z;
  max_guests : option Z;
  is_available : option bool
}.

Inductive Error :=
  | PriceNotPositive
  | BedroomsNotPositive
  | BathroomsNotPositive
  | MaxGuestsNotPositive.

Definition detail (e : Error) : string :=
  match e with
  | PriceNotPositive => "Price per night must be greater than 0."
  | BedroomsNotPositive => "Number of bedrooms must be at least 1."
  | BathroomsNotPositive => "Number of bathrooms must be at least 1."
  | MaxGuestsNotPositive => "Maximum guests must be at least 1."
  end.

(** [data.get(k) and data[k] <= 0] for a decimal entry and for an integer
    entry. *)
Definition decimal_rejected (x : option Decimal.t) : bool :=
  match x with
  | Some d => negb (Decimal.is_zero d) && Decimal.le_zero d
  | None => false
  end.

Definition int_rejected (x : option Z) : bool :=
  truthy_int x && (default 0 x <=? 0).

(** [ListingSerializer.validate] *)
Definition validate (data : Data) : Error + Data :=
  if decimal_rejected (price_per_night data) then inl PriceNotPositive
  else if int_rejected (number_of_bedrooms data) then inl BedroomsNotPositive
  else if int_rejected (number_of_bathrooms data)
  then inl BathroomsNotPositive
  else if int_rejected (max_guests data) then inl MaxGuestsNotPositive
  else inr data.

(** [get_total_reviews]: [obj.reviews.count()] for the listing with key
    [lid]. *)
Definition get_total_reviews (db : DB) (lid : N) : nat :=
  size (filter (λ kr : N * Review.t, Review.listing kr.2 = lid) (reviews db)).

End ListingSerializer.

(** ** The seed command

    Every value the command draws from [random] or [uuid] is an argument:
    the raw output of [_randbelow] for [randint] and [choice], the outcome
    for [choices].  A caught exception is [None]. *)
Module Seed.

(** [random.randint(lo, hi)] for the raw draw [raw]; [None] is the
    [ValueError] of an empty range. *)
Definition randint (lo hi : Z) (raw : Z) : option Z :=
  if hi <? lo then None else Some (lo + raw mod (hi - lo + 1)).

(** [random.choice(l)] for the raw draw [raw]; [None] is the [IndexError]
    of an empty list. *)
Definition choice {A} (l : list A) (raw : nat) : option A :=
  l !! (raw mod length l)%nat.

Global Arguments randint : simpl never.
Global Arguments choice : simpl never.
Global Arguments PyDate.add_days : simpl never.

(** [get_random_date_range] *)
Definition get_random_date_range (today : Z)
    (days_from_now_min days_from_now_max : Z) (raw_offset raw_duration : Z)
    : option (Z * Z) :=
  start_offset ← randint days_from_now_min days_from_now_max raw_offset;
  duration ← randint 1 14 raw_duration;
  start_date ← PyDate.add_days today start_offset;
  end_date ← PyDate.add_days start_date duration;
  Some (start_date, end_date).

Definition special_requests_choices : list string :=
  [""; "Late check-in please"; "Extra towels needed";
   "Ground floor preferred"; "Quiet room please";
   "Early check-in if possible"].

(** The draws of one round of the loop of [create_bookings]. *)
Record BookingDraw := mkBookingDraw {
  listing_draw : nat;
  guest_draw : nat;
  offset_draw : Z;
  duration_draw : Z;
  guests_draw : Z;
  status_draw : Status;
  requests_draw : nat;
  booking_uuid : N
}.

(** The body of the loop of [create_bookings]: the store after the insert,
    or [None] when an exception was caught. *)
Definition create_booking (db : DB) (today : Z)
    (available_listings : list (N * Listing.t)) (guests : list N)
    (d : BookingDraw) : option DB :=
  listing ← choice available_listings (listing_draw d);
  guest ← choice guests (guest_draw d);
  offset ← randint (-90) 365 (offset_draw d);
  start_date ← PyDate.add_days today offset;
  duration ← randint 1 14 (duration_draw d);
  end_date ← PyDate.add_days start_date duration;
  num_guests ← randint 1 (Z.min (Listing.max_guests listing.2) 6)
                 (guests_draw d);
  let total_price :=
    Decimal.mul_int (Listing.price_per_night listing.2) duration in
  special_requests ← choice special_requests_choices (requests_draw d);
  let row :=
    Booking.mk listing.1 guest start_date end_date num_guests total_price
      (status_draw d) (Some special_requests) in
  match bookings db !! booking_uuid d with
  | Some _ => None
  | None =>
      Some (mkDB (listings db) (<[booking_uuid d := row]> (bookings db))
              (reviews db))
  end.

Fixpoint create_bookings_loop (db : DB) (today : Z)
    (available_listings : list (N * Listing.t)) (guests : list N)
    (draws : list BookingDraw) (created_count : nat) : DB * nat :=
  match draws with
  | [] => (db, created_count)
  | d :: draws' =>
      match create_booking db today available_listings guests d with
      | Some db' =>
          create_bookings_loop db' today available_listings guests draws'
            (S created_count)
      | None =>
          create_bookings_loop db today available_listings guests draws'
            created_count
      end
  end.

(** [create_bookings(count)] with [count] the length of [draws]; [guests]
    are the keys of the users whose name starts with "guest".  The number
    is [created_count], [None] when the creation is skipped. *)
Definition create_bookings (db : DB) (today : Z) (guests : list N)
    (draws : list BookingDraw) : DB * option nat :=
  let available_listings :=
    map_to_list (filter (λ kl : N * Listing.t,
                           Listing.is_available kl.2 = true)
                        (listings db)) in
  match available_listings, guests with
  | [], _ => (db, None)
  | _, [] => (db, None)
  | _, _ =>
      let r := create_bookings_loop db today available_listings guests
                 draws 0 in
      (r.1, Some r.2)
  end.

Definition review_comments : list string :=
  ["Amazing place! Exactly as described and the host was very helpful.";
   "Great location and clean accommodations. Would definitely stay again.";
   "Perfect for our weekend getaway. Beautiful views and comfortable beds.";
   "Host was responsive and the place had everything we needed.";
   "Lovely property in a quiet neighborhood. Highly recommend!";
   "Good value for money. The amenities were as advertised.";
   "Wonderful experience! The place was spotless and well-equipped.";
   "Great communication from the host. Check-in was smooth and easy.";
   "Beautiful property with stunning views. Perfect for relaxation.";
   "Comfortable stay with all necessary amenities. Would book again.";
   "Nice place but could use some updates. Overall decent stay.";
   "Location was perfect for exploring the area. Clean and tidy.";
   "Exceeded expectations! The photos don't do it justice.";
   "Peaceful and quiet. Exactly what we were looking for.";
   "Good experience overall. Minor issues but nothing major."].

(** The draws of one round of the loop of [create_reviews]. *)
Record ReviewDraw := mkReviewDraw {
  pick_draw : nat;
  reviewer_draw : nat;
  rating_draw : nat;
  comment_draw : nat;
  review_uuid : N
}.

(** The state the loop of [create_reviews] carries: the store as the
    transaction of [handle] sees it, the set and the counter of the loop,
    whether the transaction is marked for rollback, and the keys of the
    bookings whose related listing and guest have been fetched. *)
Record ReviewLoop := mkReviewLoop {
  loop_db : DB;
  existing_reviews : gset (N * N);
  created_count : nat;
  needs_rollback : bool;
  fetched : gset N
}.

(** [Review.objects.create(listing=..., reviewer=..., booking=...,
    rating=..., comment=...)]; [None] when the insert is refused. *)
Definition insert_review (db : DB) (new_id : N) (lid reviewer : N)
    (bid : option N) (stars : Z) (text : string) : option DB :=
  match
    ReviewSerializer.objects_create db new_id
      (ReviewSerializer.mkData (Some lid) bid (Some stars) (Some text)
         None None (Some (User reviewer)))
  with
  | Ok r => Some r.1
  | Raise _ => None
  end.

(** The rest of a round once listing and reviewer are known.  The command
    runs inside [transaction.atomic()]: an insert that the database
    refuses marks the transaction for rollback, and from then on every
    query raises, which the loop catches like any exception. *)
Definition attempt_review (st : ReviewLoop) (lid reviewer : N)
    (bid : option N) (d : ReviewDraw) : ReviewLoop :=
  if bool_decide ((lid, reviewer) ∈ existing_reviews st) then st
  else
    let existing := {[ (lid, reviewer) ]} ∪ existing_reviews st in
    let skipped :=
      mkReviewLoop (loop_db st) existing (created_count st)
        (needs_rollback st) (fetched st) in
    match choice [1; 2; 3; 4; 5] (rating_draw d),
          choice review_comments (comment_draw d) with
    | Some stars, Some text =>
        if needs_rollback st then skipped
        else
          match insert_review (loop_db st) (review_uuid d) lid reviewer bid
                  stars text with
          | Some db' =>
              mkReviewLoop db' existing (S (created_count st)) false
                (fetched st)
          | None =>
              mkReviewLoop (loop_db st) existing (created_count st) true
                (fetched st)
          end
    | _, _ => skipped
    end.

(** The body of the loop of [create_reviews].  [completed_bookings],
    [all_listings] and [guests] are the lists read before the loop.
    [booking.listing] and [booking.guest] are fetched by a query the first
    time a booking is chosen and kept on the booking afterwards. *)
Definition create_review (completed_bookings : list (N * Booking.t))
    (all_listings : list (N * Listing.t)) (guests : list N)
    (st : ReviewLoop) (d : ReviewDraw) : ReviewLoop :=
  match completed_bookings with
  | _ :: _ =>
      match choice completed_bookings (pick_draw d) with
      | None => st
      | Some booking =>
          let lid := Booking.listing booking.2 in
          let reviewer := Booking.guest booking.2 in
          if bool_decide (booking.1 ∈ fetched st)
          then attempt_review st lid reviewer (Some booking.1) d
          else if needs_rollback st then st
          else
            match listings (loop_db st) !! lid with
            | None => st
            | Some _ =>
                attempt_review
                  (mkReviewLoop (loop_db st) (existing_reviews st)
                     (created_count st) (needs_rollback st)
                     ({[ booking.1 ]} ∪ fetched st))
                  lid reviewer (Some booking.1) d
            end
      end
  | [] =>
      match choice all_listings (pick_draw d),
            choice guests (reviewer_draw d) with
      | Some listing, Some reviewer =>
          attempt_review st listing.1 reviewer None d
      | _, _ => st
      end
  end.

(** [create_reviews(count)] with [count] the length of [draws], called
    with the transaction in good standing.  The result is the store as the
    transaction sees it, [created_count] ([None] when the creation is given
    up), and whether the transaction is marked for rollback, in which case
    nothing of the run is committed. *)
Definition create_reviews (db : DB) (guests : list N)
    (draws : list ReviewDraw) : DB * option nat * bool :=
  let completed_bookings :=
    map_to_list (filter (λ kb : N * Booking.t,
                           Booking.status kb.2 = completed)
                        (bookings db)) in
  let all_listings := map_to_list (listings db) in
  let run :=
    foldl (create_review completed_bookings all_listings guests)
      (mkReviewLoop db ∅ 0 false ∅) draws in
  match completed_bookings, all_listings, guests with
  | [], [], _ => (db, None, false)
  | [], _, [] => (db, None, false)
  | _, _, _ => (loop_db run, Some (created_count run), needs_rollback run)
  end.

End Seed.

(** ** Notions used by the properties *)

(** A booking counts towards conflicts while it is pending or confirmed. *)
Definition active (b : Booking.t) : Prop :=
  Booking.status b = pending ∨ Booking.status b = confirmed.

(** Overlap of two stays as half-open ranges. *)
Definition overlap (b1 b2 : Booking.t) : Prop :=
  Booking.check_in_date b1 < Booking.check_out_date b2
  ∧ Booking.check_out_date b1 > Booking.check_in_date b2.

(** No two distinct active bookings of one listing overlap. *)
Definition no_overlap (db : DB) : Prop :=
  ∀ i j b1 b2,
    bookings db !! i = Some b1 → bookings db !! j = Some b2 → i ≠ j →
    Booking.listing b1 = Booking.listing b2 → active b1 → active b2 →
    ¬ overlap b1 b2.

(** One accepted request through [BookingSerializer]: a creation, or an
    update of a stored booking. *)
Inductive step : DB → DB → Prop :=
  | step_create db today context partial new_id payload db' b :
      BookingSerializer.save db today context partial None new_id payload
        = Ok (db', b) →
      step db db'
  | step_update db today context partial pk old new_id payload db' b :
      bookings db !! pk = Some old →
      BookingSerializer.save db today context partial (Some (pk, old))
        new_id payload
        = Ok (db', b) →
      step db db'.

(** The same, where an update carries the listing and both dates. *)
Inductive full_step : DB → DB → Prop :=
  | full_step_create db today context partial new_id payload db' b :
      BookingSerializer.save db today context partial None new_id payload
        = Ok (db', b) →
      full_step db db'
  | full_step_update db today context partial pk old new_id payload db' b :
      bookings db !! pk = Some old →
      is_Some (BookingSerializer.listing_id payload) →
      is_Some (BookingSerializer.check_in_date payload) →
      is_Some (BookingSerializer.check_out_date payload) →
      BookingSerializer.save db today context partial (Some (pk, old))
        new_id payload
        = Ok (db', b) →
      full_step db db'.

(** Two payloads that agree on the entries under writable names. *)
Definition same_writable_entries (p p' : BookingSerializer.Data) : Prop :=
  BookingSerializer.listing_id p = BookingSerializer.listing_id p'
  ∧ BookingSerializer.check_in_date p = BookingSerializer.check_in_date p'
  ∧ BookingSerializer.check_out_date p = BookingSerializer.check_out_date p'
  ∧ BookingSerializer.number_of_guests p
    = BookingSerializer.number_of_guests p'
  ∧ BookingSerializer.special_requests p
    = BookingSerializer.special_requests p'.

(** A review request that the rating check lets through: no rating, a
    rating of 0, or one from 1 to 5. *)
Definition rating_passes (data : ReviewSerializer.Data) : Prop :=
  ∀ r, ReviewSerializer.rating data = Some r → r = 0 ∨ 1 ≤ r ≤ 5.

(** The listing named by a review request, if any, exists. *)
Definition listing_found (db : DB) (data : ReviewSerializer.Data) : Prop :=
  ∀ lid, ReviewSerializer.listing_id data = Some lid →
         is_Some (listings db !! lid).

(** At most one stored review per listing and reviewer. *)
Definition unique_reviews (db : DB) : Prop :=
  ∀ i j r1 r2,
    reviews db !! i = Some r1 → reviews db !! j = Some r2 → i ≠ j →
    ¬ Review.unique_together r1 r2.

(** The date checks of the booking serializer let a request through. *)
Definition dates_pass (today : Z) (data : BookingSerializer.Data) : Prop :=
  ∀ check_in check_out,
    BookingSerializer.check_in_date data = Some check_in →
    BookingSerializer.check_out_date data = Some check_out →
    check_in < check_out ∧ today ≤ check_in.

(** A booking as the seed command makes them, for the listings of [db]. *)
Definition seeded_booking (db : DB) (today : Z) (b : Booking.t) : Prop :=
  ∃ l,
    listings db !! Booking.listing b = Some l
    ∧ Listing.is_available l = true
    ∧ Booking.clean l b = inr tt
    ∧ 1 ≤ Booking.duration_nights b ≤ 14
    ∧ today - 90 ≤ Booking.check_in_date b ≤ today + 365
    ∧ 1 ≤ Booking.number_of_guests b ≤ 6
    ∧ Booking.number_of_guests b ≤ Listing.max_guests l
    ∧ Booking.total_price b
      = Decimal.mul_int (Listing.price_per_night l)
          (Booking.duration_nights b).

(** A review that rests on a completed booking of its reviewer for its
    listing, with a rating from 1 to 5. *)
Definition eligible_review (db : DB) (r : Review.t) : Prop :=
  1 ≤ Review.rating r ≤ 5
  ∧ ∃ bid b,
      Review.booking r = Some bid
      ∧ bookings db !! bid = Some b
      ∧ Booking.status b = completed
      ∧ Booking.listing b = Review.listing r
      ∧ Booking.guest b = Review.reviewer r.

(** An optional integer entry that is absent or not negative, and the same
    for an optional decimal entry. *)
Definition not_negative (x : option Z) : Prop :=
  ∀ n, x = Some n → 0 ≤ n.

Definition decimal_not_negative (x : option Decimal.t) : Prop :=
  ∀ d, x = Some d → Decimal.sign d = false ∨ Decimal.coefficient d = 0%N.

(** The error of the first check that fails, in the order of the list. *)
Fixpoint first_failure (checks : list (bool * ValidationError))
    : option ValidationError :=
  match checks with
  | [] => None
  | (failed, e) :: rest => if failed then Some e else first_failure rest
  end.

(** ** Sample data *)
Module Sample.

Definition villa : Listing.t :=
  Listing.mk (Decimal.mk false 10000 (-2)) 4 1 true.

Definition store : DB := mkDB {[ 1%N := villa ]} ∅ ∅.

Definition alice : option Request := Some {| req_user := Some (User 7) |}.
Definition bob : option Request := Some {| req_user := Some (User 8) |}.

Definition today : Z := PyDate.ymd2ord 2024 1 1.

(** A payload with the four required entries. *)
Definition request (lid : N) (check_in check_out guests : Z)
    : BookingSerializer.Data :=
  BookingSerializer.mkData (Some lid) (Some check_in) (Some check_out)
    (Some guests) None None None None None.

(** A payload that carries the two dates only. *)
Definition new_dates (check_in check_out : Z) : BookingSerializer.Data :=
  BookingSerializer.mkData None (Some check_in) (Some check_out)
    None None None None None None.

Definition stay (lid guest : N) (check_in check_out : Z) (s : Status)
    : Booking.t :=
  Booking.mk lid guest check_in check_out 2
    (Decimal.mul_int (Listing.price_per_night villa)
       (PyDate.days_between check_out check_in))
    s None.

Definition june (day : Z) : Z := PyDate.ymd2ord 2024 6 day.

(** Two adjacent pending stays, 1 to 10 June and 10 to 15 June. *)
Definition first_stay : Booking.t := stay 1 7 (june 1) (june 10) pending.
Definition second_stay : Booking.t := stay 1 8 (june 10) (june 15) pending.

Definition store1 : DB :=
  mkDB (listings store) (<[ 10%N := first_stay ]> ∅) ∅.
Definition store2 : DB :=
  mkDB (listings store) (<[ 11%N := second_stay ]> (bookings store1)) ∅.

(** The second stay moved to 5 to 12 June. *)
Definition moved_stay : Booking.t :=
  Booking.mk 1 8 (june 5) (june 12) 2 (Booking.total_price second_stay)
    pending None.
Definition store3 : DB :=
  mkDB (listings store) (<[ 11%N := moved_stay ]> (bookings store2)) ∅.

(** A payload as a client may send it, with a status and a total price of
    its own choosing. *)
Definition forged_request : BookingSerializer.Data :=
  BookingSerializer.mkData (Some 1%N) (Some (PyDate.ymd2ord 2024 1 1))
    (Some (PyDate.ymd2ord 2024 1 4)) (Some 2) None
    (Some (Decimal.mk false 1 0)) (Some confirmed) None None.

(** A store where user 7 has a completed stay (key 10), user 8 a pending one
    (key 11), and user 7 has already reviewed listing 1. *)
Definition reviewed : DB :=
  mkDB (listings store)
    (<[ 10%N := stay 1 7 (june 1) (june 10) completed ]>
       (<[ 11%N := second_stay ]> ∅))
    (<[ 20%N := Review.mk 1 7 (Some 10%N) 5 "Great place" ]> ∅).

Definition review_request (lid : N) (bid : option N) (stars : Z)
    : ReviewSerializer.Data :=
  ReviewSerializer.mkData (Some lid) bid (Some stars) (Some "Lovely")
    None None None.

(** A context without request, and one whose request has no user. *)
Definition no_request : option Request := None.
Definition no_user : option Request := Some {| req_user := None |}.

(** The context of a request that nobody has signed in for. *)
Definition anonymous : option Request :=
  Some {| req_user := Some AnonymousUser |}.

(** A payload that carries a check-in date and nothing else. *)
Definition only_check_in (check_in : Z) : BookingSerializer.Data :=
  BookingSerializer.mkData None (Some check_in) None None None None None
    None None.

(** Listing data with a price of 0.00, no bedrooms and no guests allowed,
    and the same with a price of -5.00 and -1 bathrooms. *)
Definition free_listing : ListingSerializer.Data :=
  ListingSerializer.mkData (Some "Shed") None None
    (Some (Decimal.mk false 0 (-2))) (Some 0) None (Some 0) None.

Definition negative_listing : ListingSerializer.Data :=
  ListingSerializer.mkData (Some "Shed") None None
    (Some (Decimal.mk true 500 (-2))) (Some 2) (Some (-1)) (Some 4) None.

Definition negative_bathrooms : ListingSerializer.Data :=
  ListingSerializer.mkData (Some "Shed") None None
    (Some (Decimal.mk false 500 (-2))) (Some 2) (Some (-1)) (Some (-4))
    None.

(** A second listing, and a store where user 8 has a completed stay at that
    second listing (key 12). *)
Definition cabin : Listing.t :=
  Listing.mk (Decimal.mk false 8000 (-2)) 2 1 true.

Definition two_listings : DB :=
  mkDB (<[ 2%N := cabin ]> (listings store))
    (<[ 12%N := stay 2 8 (june 1) (june 3) completed ]> (bookings reviewed))
    (reviews reviewed).

(** Draws for two rounds of the seed command's booking loop. *)
Definition booking_draws : list Seed.BookingDraw :=
  [ Seed.mkBookingDraw 0 0 100 3 1 confirmed 1 30;
    Seed.mkBookingDraw 5 1 400 20 7 cancelled 0 31 ].


(** The third of these rounds alone, and followed by the first. *)
Definition last_review_draw : list Seed.ReviewDraw :=
  [ Seed.mkReviewDraw 1 0 2 7 42 ].


End Sample.

(** * Properties *)

(** ** Decimal arithmetic *)
Section decimal_facts.

Lemma ndigits_fuel_le fuel : ∀ (n : N) (k : Z),
  1 ≤ k → Z.of_N n < 10 ^ k → Decimal.ndigits_fuel fuel n ≤ k.
Proof.
  induction fuel as [|fuel IH]; intros n k Hk Hn; simpl; [lia|].
  destruct (N.ltb_spec n 10) as [Hlt|Hge]; [lia|].
  assert (2 ≤ k) as Hk2.
  { destruct (decide (k = 1)) as [->|]; [|lia]. simpl in Hn. lia. }
  assert (Decimal.ndigits_fuel fuel (n / 10) ≤ k - 1); [|lia].
  apply IH; [lia|].
  rewrite N2Z.inj_div. apply Z.div_lt_upper_bound; [lia|].
  replace k with (1 + (k - 1)) in Hn by lia.
  rewrite Z.pow_add_r in Hn by lia. exact Hn.
Qed.

Lemma fix_within_precision d :
  Z.of_N (Decimal.coefficient d) < 10 ^ Decimal.prec → Decimal.fix_ d = d.
Proof.
  intros Hd. unfold Decimal.fix_.
  pose proof (ndigits_fuel_le
                (S (N.to_nat (N.log2 (Decimal.coefficient d))))
                (Decimal.coefficient d) Decimal.prec) as Hle.
  unfold Decimal.ndigits.
  destruct (Z.leb_spec
              (Decimal.ndigits_fuel
                 (S (N.to_nat (N.log2 (Decimal.coefficient d))))
                 (Decimal.coefficient d)) Decimal.prec) as [|Hgt]; [done|].
  unfold Decimal.prec in *. lia.
Qed.

(** A price of at most ten digits times a number of nights between two
    dates is the exact product, with the exponent of the price. *)
Lemma mul_int_nights_exact (price : Decimal.t) (check_in check_out : Z) :
  Z.of_N (Decimal.coefficient price) < 10 ^ 10 →
  PyDate.valid check_in → PyDate.valid check_out → check_in < check_out →
  Decimal.mul_int price (PyDate.days_between check_out check_in)
  = Decimal.mk (Decimal.sign price)
      (Decimal.coefficient price * Z.to_N (check_out - check_in))
      (Decimal.exponent price).
Proof.
  unfold PyDate.valid, PyDate.MINORDINAL, PyDate.MAXORDINAL,
    PyDate.days_between.
  intros Hc Hin Hout Hlt.
  unfold Decimal.mul_int, Decimal.mul, Decimal.of_int.
  destruct (Z.ltb_spec (check_out - check_in) 0) as [|_]; [lia|].
  rewrite xorb_false_r, Z.add_0_r.
  replace (Z.abs_N (check_out - check_in)) with (Z.to_N (check_out - check_in))
    by (rewrite Zabs2N.abs_N_nonneg; [done|lia]).
  apply fix_within_precision. simpl.
  rewrite N2Z.inj_mul, Z2N.id by lia.
  unfold Decimal.prec.
  assert (0 ≤ Z.of_N (Decimal.coefficient price)) by lia.
  nia.
Qed.

End decimal_facts.

(** ** Booking validation *)
Section booking_validation.

Import BookingSerializer.

Implicit Types (db : DB) (data : Data) (instance : option (N * Booking.t)).

(** Membership of the conflict query, row by row. *)
Lemma overlapping_bookings_lookup db instance lid check_in check_out k b :
  overlapping_bookings db instance lid check_in check_out !! k = Some b
  ↔ bookings db !! k = Some b
    ∧ Booking.listing b = lid
    ∧ active b
    ∧ Booking.check_in_date b < check_out
    ∧ Booking.check_out_date b > check_in
    ∧ (∀ inst, instance = Some inst → k ≠ inst.1).
Proof.
  unfold overlapping_bookings, active.
  destruct instance as [inst|]; rewrite ?map_lookup_filter_Some; simpl;
    rewrite ?map_lookup_filter_Some; simpl;
    rewrite !elem_of_cons, elem_of_nil.
  - split.
    + intros [(Hb & Hl & Hs & Hci & Hco) Hk].
      split_and!; try done; [tauto|]. by intros ? [= <-].
    + intros (Hb & Hl & Hs & Hci & Hco & Hk).
      split_and!; try done; [tauto|]. by apply Hk.
  - split.
    + intros (Hb & Hl & Hs & Hci & Hco).
      split_and!; try done; tauto.
    + intros (Hb & Hl & Hs & Hci & Hco & _).
      split_and!; try done; tauto.
Qed.

Lemma qs_exists_true {A} (q : gmap N A) :
  qs_exists q = true ↔ ∃ k x, q !! k = Some x.
Proof.
  unfold qs_exists. rewrite bool_decide_eq_true. split.
  - apply map_choose.
  - intros (k & x & Hk) ->. by rewrite lookup_empty in Hk.
Qed.

Lemma qs_exists_false {A} (q : gmap N A) :
  qs_exists q = false ↔ ∀ k, q !! k = None.
Proof.
  unfold qs_exists. rewrite bool_decide_eq_false. split.
  - intros Hq k. destruct (q !! k) eqn:Hk; [|done].
    exfalso. apply Hq. intros ->. by rewrite lookup_empty in Hk.
  - intros Hq Hne. destruct (map_choose _ Hne) as (k & x & Hk).
    by rewrite Hq in Hk.
Qed.

(** [validate] on a request that carries the listing, both dates and the
    number of guests, for a listing that exists. *)
Lemma validate_complete db today instance data lid l check_in check_out n :
  listing_id data = Some lid →
  check_in_date data = Some check_in →
  check_out_date data = Some check_out →
  number_of_guests data = Some n →
  listings db !! lid = Some l →
  validate db today instance data =
    if check_out <=? check_in then raise InvalidDateRange
    else if check_in <? today then raise PastCheckInDate
    else if negb (Listing.is_available l) then raise ListingUnavailable
    else if negb (n =? 0) && (n >? Listing.max_guests l)
         then raise GuestCapacityExceeded
    else if qs_exists (overlapping_bookings db instance lid check_in check_out)
         then raise DateRangeConflict
    else Ok (set_listing l data).
Proof.
  intros Hlid Hci Hco Hn Hl. unfold validate, validate_dates.
  rewrite Hci, Hco, Hlid, Hl. simpl. rewrite Hci, Hco, Hn. simpl.
  destruct (check_out <=? check_in); [done|].
  destruct (check_in <? today); done.
Qed.

End booking_validation.

(** ** The conflict check and the order of the checks *)
Section booking_checks.

Import BookingSerializer.

Implicit Types (db : DB) (data : Data) (instance : option (N * Booking.t)).

(** What [validate] returns once the date checks have passed. *)
Lemma validate_after_dates db today instance data :
  validate_dates today data = Ok tt →
  validate db today instance data =
    match listing_id data with
    | Some lid =>
        match listings db !! lid with
        | None => raise ListingNotFound
        | Some l =>
            if negb (Listing.is_available l) then raise ListingUnavailable
            else if truthy_int (number_of_guests data)
                    && (default 0 (number_of_guests data)
                        >? Listing.max_guests l)
            then raise GuestCapacityExceeded
            else
              match check_in_date data, check_out_date data with
              | Some check_in, Some check_out =>
                  if qs_exists (overlapping_bookings db instance lid
                                  check_in check_out)
                  then raise DateRangeConflict
                  else Ok (set_listing l data)
              | _, _ => Ok (set_listing l data)
              end
        end
    | None => Ok data
    end.
Proof. intros Hd. unfold validate. rewrite Hd. reflexivity. Qed.

(** C2: the conflict check of [validate] finds a conflict exactly when some
    stored booking of the listing (other than the one being updated) is
    pending or confirmed, checks in before the proposed check-out and checks
    out after the proposed check-in.  A booking that checks out on the
    proposed check-in day is never in the conflict set, nor is a cancelled
    or completed one, whatever its dates. *)
Theorem conflict_check_half_open db instance lid check_in check_out :
  (qs_exists (overlapping_bookings db instance lid check_in check_out) = true
   ↔ ∃ k b,
       bookings db !! k = Some b
       ∧ Booking.listing b = lid
       ∧ (Booking.status b = pending ∨ Booking.status b = confirmed)
       ∧ Booking.check_in_date b < check_out
       ∧ Booking.check_out_date b > check_in
       ∧ (∀ inst, instance = Some inst → k ≠ inst.1))
  ∧ (∀ k b,
       bookings db !! k = Some b → Booking.check_out_date b = check_in →
       overlapping_bookings db instance lid check_in check_out !! k = None)
  ∧ (∀ k b,
       bookings db !! k = Some b →
       Booking.status b = cancelled ∨ Booking.status b = completed →
       overlapping_bookings db instance lid check_in check_out !! k = None).
Proof.
  split_and!.
  - rewrite qs_exists_true. split.
    + intros (k & b & Hk). exists k, b.
      by apply overlapping_bookings_lookup in Hk.
    + intros (k & b & Hk). exists k, b.
      by apply overlapping_bookings_lookup.
  - intros k b Hb Hadj.
    destruct (overlapping_bookings db instance lid check_in check_out !! k)
      as [b'|] eqn:Hq; [|done].
    apply overlapping_bookings_lookup in Hq as (Hb' & _ & _ & _ & Hgt & _).
    rewrite Hb in Hb'. injection Hb' as <-. lia.
  - intros k b Hb Hst.
    destruct (overlapping_bookings db instance lid check_in check_out !! k)
      as [b'|] eqn:Hq; [|done].
    apply overlapping_bookings_lookup in Hq as (Hb' & _ & Hact & _).
    rewrite Hb in Hb'. injection Hb' as <-.
    unfold active in Hact. destruct Hst, Hact; congruence.
Qed.

(** Adjacent stays on the sample data: with a stay from 1 to 10 June stored,
    a request from 10 to 15 June meets no conflict. *)
Lemma conflict_check_half_open_witness :
  overlapping_bookings Sample.store1 None 1 (Sample.june 10) (Sample.june 15)
    !! 10%N = None.
Proof.
  destruct (conflict_check_half_open Sample.store1 None 1
              (Sample.june 10) (Sample.june 15)) as (_ & Hadj & _).
  apply (Hadj 10%N Sample.first_stay); reflexivity.
Defined.

(** C3: [validate] runs its checks in the order dates, past check-in,
    availability, capacity, conflict and stops at the first that fails: on a
    request that names an existing listing and carries both dates and the
    number of guests, the error is that of the first failing check, and
    there is none exactly when the request is accepted.  A request whose
    check-in and check-out are the same day is rejected with
    [InvalidDateRange] whatever else it contains. *)
Theorem validate_reports_first_failure db today instance data :
  (∀ d, check_in_date data = Some d → check_out_date data = Some d →
        validate db today instance data = raise InvalidDateRange)
  ∧ (∀ lid l check_in check_out n,
       listing_id data = Some lid →
       check_in_date data = Some check_in →
       check_out_date data = Some check_out →
       number_of_guests data = Some n →
       listings db !! lid = Some l →
       validate db today instance data =
         match
           first_failure
             [ (check_out <=? check_in, InvalidDateRange);
               (check_in <? today, PastCheckInDate);
               (negb (Listing.is_available l), ListingUnavailable);
               (negb (n =? 0) && (n >? Listing.max_guests l),
                GuestCapacityExceeded);
               (qs_exists
                  (overlapping_bookings db instance lid check_in check_out),
                DateRangeConflict) ]
         with
         | Some e => raise e
         | None => Ok (set_listing l data)
         end).
Proof.
  split.
  - intros d Hci Hco. unfold validate, validate_dates.
    rewrite Hci, Hco. by rewrite Z.leb_refl.
  - intros lid l check_in check_out n Hlid Hci Hco Hn Hl.
    rewrite (validate_complete db today instance data lid l check_in
               check_out n) by done.
    simpl.
    repeat match goal with |- context [if ?c then _ else _] =>
      destruct c eqn:?; try done end.
Qed.

(** On the sample data: a request that is at once a zero-night stay, in the
    past, over capacity and for an existing listing gets
    [InvalidDateRange]; a past request over capacity gets
    [PastCheckInDate]. *)
Lemma validate_reports_first_failure_witness :
  validate Sample.store (Sample.june 5) None
    (Sample.request 1 (Sample.june 1) (Sample.june 1) 9)
  = raise InvalidDateRange
  ∧ validate Sample.store (Sample.june 5) None
      (Sample.request 1 (Sample.june 1) (Sample.june 3) 9)
    = raise PastCheckInDate.
Proof.
  split.
  - destruct (validate_reports_first_failure Sample.store (Sample.june 5) None
                (Sample.request 1 (Sample.june 1) (Sample.june 1) 9))
      as [Hzero _].
    apply (Hzero (Sample.june 1)); reflexivity.
  - destruct (validate_reports_first_failure Sample.store (Sample.june 5) None
                (Sample.request 1 (Sample.june 1) (Sample.june 3) 9))
      as [_ Hord].
    rewrite (Hord 1%N Sample.villa (Sample.june 1) (Sample.june 3) 9);
      reflexivity.
Defined.

End booking_checks.

(** ** Capacity and the past check-in rule *)
Section booking_rules.

Import BookingSerializer.

Implicit Types (db : DB) (data : Data) (instance : option (N * Booking.t)).

(** C6, as the claim has it, fails: moving the stored second stay to dates
    that lie before today is rejected with [PastCheckInDate]. *)
Lemma update_into_past_rejected :
  validate Sample.store2 (Sample.june 5)
    (Some (11%N, Sample.second_stay))
    (Sample.new_dates (Sample.june 2) (Sample.june 4))
  = raise PastCheckInDate.
Proof. reflexivity. Qed.

(** C6 (amended): the rule on past check-in dates does not look at whether a
    booking is being created or updated.  For any instance, [validate] fails
    with [PastCheckInDate] exactly when the request carries both dates,
    check-out is after check-in and check-in is before today; it is skipped
    only when one of the dates is missing from the request. *)
Theorem past_check_in_rule_uniform db today instance data :
  validate db today instance data = raise PastCheckInDate
  ↔ ∃ check_in check_out,
      check_in_date data = Some check_in
      ∧ check_out_date data = Some check_out
      ∧ check_in < check_out
      ∧ check_in < today.
Proof.
  split.
  - destruct (validate_dates today data) as [[]|e] eqn:Hd.
    + rewrite validate_after_dates by done.
      intros Hv. exfalso.
      destruct (listing_id data) as [lid|]; [|done].
      destruct (listings db !! lid) as [l|]; [|done].
      destruct (negb (Listing.is_available l)); [done|].
      destruct (truthy_int (number_of_guests data)
                && (default 0 (number_of_guests data)
                    >? Listing.max_guests l)); [done|].
      destruct (check_in_date data), (check_out_date data); try done.
      by destruct (qs_exists _).
    + unfold validate. rewrite Hd. simpl. intros [= ->].
      unfold validate_dates in Hd.
      destruct (check_in_date data) as [ci|]; [|done].
      destruct (check_out_date data) as [co|]; [|done].
      destruct (Z.leb_spec co ci); [done|].
      destruct (Z.ltb_spec ci today); [|done].
      exists ci, co. done.
  - intros (ci & co & Hci & Hco & Hlt & Hpast).
    unfold validate, validate_dates. rewrite Hci, Hco.
    destruct (Z.leb_spec co ci); [lia|].
    destruct (Z.ltb_spec ci today); [done|lia].
Qed.

End booking_rules.

(** ** Overlapping bookings across accepted requests *)
Section booking_states.

Import BookingSerializer.

Implicit Types (db : DB) (data : Data) (instance : option (N * Booking.t)).

(** The read-only names are dropped from the payload, the other five
    entries pass unchanged. *)
Lemma validate_dates_Ok today data :
  validate_dates today data = Ok tt ↔ dates_pass today data.
Proof.
  unfold validate_dates, dates_pass. split.
  - intros Hd ci co Hci Hco. rewrite Hci, Hco in Hd.
    destruct (Z.leb_spec co ci); [done|].
    destruct (Z.ltb_spec ci today); [done|lia].
  - intros Hp.
    destruct (check_in_date data) as [ci|]; [|done].
    destruct (check_out_date data) as [co|]; [|done].
    destruct (Hp ci co eq_refl eq_refl).
    destruct (Z.leb_spec co ci); [lia|].
    destruct (Z.ltb_spec ci today); [lia|done].
Qed.

Lemma writable_entries_eq payload :
  writable_entries payload
  = mkData (listing_id payload) (check_in_date payload)
      (check_out_date payload) (number_of_guests payload)
      (special_requests payload) None None None None.
Proof. reflexivity. Qed.

(** What a payload that passes field-level validation is like. *)
Lemma to_internal_value_Ok partial payload data :
  to_internal_value partial payload = Ok data →
  data = writable_entries payload
  ∧ (∀ n, number_of_guests payload = Some n → 1 ≤ n)
  ∧ (partial = false →
     is_Some (listing_id payload) ∧ is_Some (check_in_date payload)
     ∧ is_Some (check_out_date payload)
     ∧ is_Some (number_of_guests payload)).
Proof.
  unfold to_internal_value, field_errors, check_required, check_min_value.
  destruct (listing_id payload), (check_in_date payload),
    (check_out_date payload), (number_of_guests payload) as [g|], partial;
    simpl; try done;
    try (destruct (Z.ltb_spec g 1); [done|]);
    intros [= <-]; split_and!; try done; try by eauto.
  all: by intros ? [= <-].
Qed.

(** With [partial=True] only the bound on the number of guests is left of
    field-level validation. *)
Lemma to_internal_value_partial payload :
  (∀ n, number_of_guests payload = Some n → 1 ≤ n) →
  to_internal_value true payload = Ok (writable_entries payload).
Proof.
  intros Hn.
  unfold to_internal_value, field_errors, check_required, check_min_value.
  destruct (listing_id payload), (check_in_date payload),
    (check_out_date payload), (number_of_guests payload) as [g|];
    simpl; try done;
    by destruct (Z.ltb_spec g 1); [specialize (Hn g eq_refl); lia|].
Qed.

(** A successful [save] is field-level validation, [validate], and the
    write, each successful. *)
Lemma save_Ok_unfold db today context partial instance new_id payload db' b :
  save db today context partial instance new_id payload = Ok (db', b) →
  ∃ vd,
    to_internal_value partial payload = Ok (writable_entries payload)
    ∧ validate db today instance (writable_entries payload) = Ok vd
    ∧ match instance with
      | None => create db context new_id vd
      | Some inst => update db inst vd
      end = Ok (db', b).
Proof.
  unfold save, run_validation.
  destruct (to_internal_value partial payload) as [data|e] eqn:Hf; [|done].
  destruct (to_internal_value_Ok _ _ _ Hf) as (-> & _). simpl.
  destruct (validate db today instance (writable_entries payload))
    as [vd|e] eqn:Hv; [|done].
  simpl. intros Hw. by exists vd.
Qed.

(** What an accepting [validate] has established. *)
Lemma validate_Ok_inv db today instance data vd :
  validate db today instance data = Ok vd →
  match listing_id data with
  | None => vd = data
  | Some lid =>
      ∃ l, listings db !! lid = Some l
           ∧ vd = set_listing l data
           ∧ ∀ check_in check_out,
               check_in_date data = Some check_in →
               check_out_date data = Some check_out →
               check_in < check_out
               ∧ qs_exists (overlapping_bookings db instance lid
                              check_in check_out) = false
  end.
Proof.
  intros Hv.
  destruct (validate_dates today data) as [[]|e] eqn:Hd;
    [|by unfold validate in Hv; rewrite Hd in Hv].
  rewrite validate_after_dates in Hv by done.
  destruct (listing_id data) as [lid|]; [|by injection Hv].
  destruct (listings db !! lid) as [l|]; [|done].
  exists l. split; [done|].
  destruct (negb (Listing.is_available l)); [done|].
  destruct (truthy_int (number_of_guests data)
            && (default 0 (number_of_guests data) >? Listing.max_guests l));
    [done|].
  unfold validate_dates in Hd.
  destruct (check_in_date data) as [ci|], (check_out_date data) as [co|];
    try (injection Hv as <-; split; [done|]; intros ?? [=] [=]);
    try (injection Hv as <-; split; [done|]; intros ?? [=]).
  destruct (qs_exists (overlapping_bookings db instance lid ci co)) eqn:Hq;
    [done|].
  injection Hv as <-. split; [done|].
  intros ?? [= <-] [= <-]. split; [|done].
  destruct (Z.leb_spec co ci); [done|lia].
Qed.

(** What a successful [create] has stored. *)
Lemma create_Ok_inv db context new_id vd db' b :
  create db context new_id vd = Ok (db', b) →
  ∃ l check_in check_out lid,
    listing vd = Some l
    ∧ check_in_date vd = Some check_in
    ∧ check_out_date vd = Some check_out
    ∧ listing_id vd = Some lid
    ∧ Booking.listing b = lid
    ∧ Booking.check_in_date b = check_in
    ∧ Booking.check_out_date b = check_out
    ∧ Booking.status b = default Booking.default_status (status vd)
    ∧ Booking.total_price b
      = Decimal.mul_int (Listing.price_per_night l)
          (PyDate.days_between check_out check_in)
    ∧ bookings db !! new_id = None
    ∧ db' = mkDB (listings db) (<[new_id := b]> (bookings db)) (reviews db).
Proof.
  unfold create, objects_create.
  set (vd' := match context with
              | Some request =>
                  match req_user request with
                  | Some u => set_guest u vd
                  | None => vd
                  end
              | None => vd
              end).
  assert (listing vd' = listing vd ∧ check_in_date vd' = check_in_date vd
          ∧ check_out_date vd' = check_out_date vd
          ∧ listing_id vd' = listing_id vd ∧ status vd' = status vd)
    as (Hl & Hci & Hco & Hlid & Hst).
  { subst vd'. destruct context as [[[u|]]|]; done. }
  clearbody vd'. rewrite <- Hl, <- Hci, <- Hco, <- Hlid, <- Hst.
  clear Hl Hci Hco Hlid Hst.
  destruct (listing vd') as [l|]; [|done].
  destruct (check_in_date vd') as [ci|] eqn:Eci; [|done].
  destruct (check_out_date vd') as [co|] eqn:Eco; [|done].
  simpl. rewrite Eci, Eco.
  destruct (guest vd') as [[|g]|]; [done| |done]. simpl.
  destruct (listing_id vd') as [lid|]; [|done]. simpl.
  destruct (number_of_guests vd') as [n|]; [|done]. simpl.
  destruct (booking_constraints db _); [|done]. simpl.
  destruct (bookings db !! new_id) eqn:Hfresh; [done|].
  intros [= <- <-]. exists l, ci, co, lid. done.
Qed.

(** Storing, under key [k], a booking that the conflict query clears keeps
    the store free of overlaps. *)
Lemma no_overlap_insert db instance k b :
  no_overlap db →
  (∀ inst, instance = Some inst → inst.1 = k) →
  qs_exists (overlapping_bookings db instance (Booking.listing b)
               (Booking.check_in_date b) (Booking.check_out_date b)) = false →
  no_overlap (mkDB (listings db) (<[k := b]> (bookings db)) (reviews db)).
Proof.
  intros Hinv Hinst Hq i j b1 b2 Hi Hj Hij Hl Ha1 Ha2 [Hov1 Hov2].
  simpl in Hi, Hj. rewrite qs_exists_false in Hq.
  assert (∀ j' b', j' ≠ k → bookings db !! j' = Some b' →
            Booking.listing b' = Booking.listing b → active b' →
            Booking.check_in_date b' < Booking.check_out_date b →
            Booking.check_out_date b' > Booking.check_in_date b → False)
    as Hclear.
  { intros j' b' Hj' Hb' Hl' Ha' H1 H2.
    specialize (Hq j').
    assert (overlapping_bookings db instance (Booking.listing b)
              (Booking.check_in_date b) (Booking.check_out_date b) !! j'
            = Some b') as Hin; [|by rewrite Hq in Hin].
    apply overlapping_bookings_lookup. split_and!; try done.
    intros inst ->. by rewrite (Hinst inst). }
  destruct (decide (i = k)) as [->|Hik], (decide (j = k)) as [->|Hjk].
  - done.
  - rewrite lookup_insert_eq in Hi. injection Hi as <-.
    rewrite lookup_insert_ne in Hj by done.
    apply (Hclear j b2); auto; lia.
  - rewrite lookup_insert_eq in Hj. injection Hj as <-.
    rewrite lookup_insert_ne in Hi by done.
    apply (Hclear i b1); auto; lia.
  - rewrite lookup_insert_ne in Hi, Hj by done.
    apply (Hinv i j b1 b2); done.
Qed.

(** A creation keeps the store free of overlapping active bookings. *)
Lemma no_overlap_create db today context partial new_id payload db' b :
  no_overlap db →
  save db today context partial None new_id payload = Ok (db', b) →
  no_overlap db'.
Proof.
  intros Hinv Hsave.
  apply save_Ok_unfold in Hsave as (vd & _ & Hv & Hsave).
  apply create_Ok_inv in Hsave
    as (l & ci & co & lid & Hl & Hci & Hco & Hlid & Hbl & Hbi & Hbo & _
        & _ & _ & ->).
  apply validate_Ok_inv in Hv. rewrite writable_entries_eq in Hv.
  simpl in Hv.
  destruct (listing_id payload) as [lid'|].
  - destruct Hv as (l' & _ & -> & Hdates). simpl in *.
    injection Hlid as ->.
    destruct (Hdates ci co Hci Hco) as [_ Hq].
    apply (no_overlap_insert db None); [done | by intros ? [=] |].
    by rewrite Hbl, Hbi, Hbo.
  - subst vd. done.
Qed.

(** So does an update that carries the listing and both dates. *)
Lemma no_overlap_full_update
    db today context partial pk old new_id payload db' b :
  no_overlap db →
  is_Some (listing_id payload) →
  is_Some (check_in_date payload) →
  is_Some (check_out_date payload) →
  save db today context partial (Some (pk, old)) new_id payload
  = Ok (db', b) →
  no_overlap db'.
Proof.
  intros Hinv [lid Hlid] [ci Hci] [co Hco] Hsave.
  apply save_Ok_unfold in Hsave as (vd & _ & Hv & Hsave).
  apply validate_Ok_inv in Hv. rewrite writable_entries_eq in Hv.
  simpl in Hv. rewrite Hlid in Hv.
  destruct Hv as (l & _ & -> & Hdates).
  destruct (Hdates ci co Hci Hco) as [_ Hq].
  unfold update in Hsave. simpl in Hsave.
  rewrite ?Hlid, ?Hci, ?Hco in Hsave. simpl in Hsave.
  destruct (booking_constraints db _); [|done]. simpl in Hsave.
  injection Hsave as <- <-.
  apply (no_overlap_insert db (Some (pk, old))); [done | by intros ? [= <-] |].
  done.
Qed.

Lemma no_overlap_full_step db db' :
  full_step db db' → no_overlap db → no_overlap db'.
Proof.
  intros Hstep Hinv. destruct Hstep.
  - by eapply no_overlap_create.
  - by eapply no_overlap_full_update.
Qed.

(** Creations and updates that carry the listing and both dates lead from a
    store without overlapping active bookings only to such stores; in
    particular from a store without bookings. *)
Lemma no_overlap_full_reachable db db' :
  no_overlap db → rtc full_step db db' → no_overlap db'.
Proof.
  intros Hinv Hreach.
  induction Hreach as [|db1 db2 db3 Hstep _ IH]; [done|].
  apply IH. by eapply no_overlap_full_step.
Qed.

Lemma no_overlap_empty db : bookings db = ∅ → no_overlap db.
Proof. intros Hempty i j b1 b2 Hi. by rewrite Hempty, lookup_empty in Hi. Qed.

End booking_states.

(** ** The number of guests *)
Section booking_guest_count.

Import BookingSerializer.

Implicit Types (db : DB) (instance : option (N * Booking.t)).



End booking_guest_count.

(** ** Overlap after an update that carries only dates *)
Section booking_partial_update.

Import BookingSerializer.

Lemma sample_first_create :
  save Sample.store Sample.today Sample.alice false None 10%N
    (Sample.request 1 (Sample.june 1) (Sample.june 10) 2)
  = Ok (Sample.store1, Sample.first_stay).
Proof. vm_compute. reflexivity. Qed.

Lemma sample_second_create :
  save Sample.store1 Sample.today Sample.bob false None 11%N
    (Sample.request 1 (Sample.june 10) (Sample.june 15) 2)
  = Ok (Sample.store2, Sample.second_stay).
Proof. vm_compute. reflexivity. Qed.

Lemma sample_no_overlap : no_overlap Sample.store2.
Proof.
  apply (no_overlap_full_reachable Sample.store);
    [by apply no_overlap_empty|].
  eapply rtc_l; [eapply full_step_create, sample_first_create|].
  eapply rtc_l; [eapply full_step_create, sample_second_create|].
  done.
Qed.

(** C1: the store is meant to stay free of overlapping active bookings of
    one listing, and creations and complete updates keep it so.  An update
    that carries only the two dates is accepted without the conflict query
    being run, since [validate] takes the listing from the request alone:
    two accepted creations of adjacent stays (1 to 10 June, 10 to 15 June)
    followed by the accepted move of the second stay to 5 to 12 June reach a
    store in which the two pending stays overlap. *)
Theorem dates_only_update_reaches_overlap :
  no_overlap Sample.store2
  ∧ rtc step Sample.store Sample.store2
  ∧ save Sample.store2 Sample.today Sample.bob true
      (Some (11%N, Sample.second_stay)) 12%N
      (Sample.new_dates (Sample.june 5) (Sample.june 12))
    = Ok (Sample.store3, Sample.moved_stay)
  ∧ rtc step Sample.store Sample.store3
  ∧ ¬ no_overlap Sample.store3.
Proof.
  assert (rtc step Sample.store Sample.store2) as Hreach.
  { eapply rtc_l; [eapply step_create, sample_first_create|].
    eapply rtc_l; [eapply step_create, sample_second_create|].
    done. }
  assert (save Sample.store2 Sample.today Sample.bob true
            (Some (11%N, Sample.second_stay)) 12%N
            (Sample.new_dates (Sample.june 5) (Sample.june 12))
          = Ok (Sample.store3, Sample.moved_stay)) as Hmove.
  { vm_compute. reflexivity. }
  split_and!; [exact sample_no_overlap | exact Hreach | exact Hmove | |].
  - eapply rtc_r; [exact Hreach|].
    eapply (step_update _ _ _ _ 11%N Sample.second_stay); [|exact Hmove].
    reflexivity.
  - intros Hinv.
    apply (Hinv 10%N 11%N Sample.first_stay Sample.moved_stay);
      try reflexivity; try done; try (by left).
Qed.

End booking_partial_update.

(** ** Pricing of created bookings *)
Section booking_pricing.

Import BookingSerializer.

Implicit Types (db : DB) (data : Data).

(** C5: for a request accepted by [validate], [create] stores a booking
    whose total price is the nightly rate times the day difference of the
    two dates, as an exact decimal: the coefficient is the product of the
    rate's coefficient and the number of nights and the exponent stays at
    two decimal places, for every rate the price column can hold and every
    pair of dates. *)
Theorem create_total_price_exact
    db today context u new_id data vd lid l check_in check_out n :
  validate db today None data = Ok vd →
  listing_id data = Some lid →
  listings db !! lid = Some l →
  check_in_date data = Some check_in →
  check_out_date data = Some check_out →
  number_of_guests data = Some n →
  context = Some {| req_user := Some (User u) |} →
  bookings db !! new_id = None →
  Decimal.field 10 2 (Listing.price_per_night l) →
  PyDate.valid check_in → PyDate.valid check_out →
  ∃ db' b,
    create db context new_id vd = Ok (db', b)
    ∧ bookings db' !! new_id = Some b
    ∧ 0 < check_out - check_in
    ∧ Booking.duration_nights b = check_out - check_in
    ∧ Booking.total_price b
      = Decimal.mk (Decimal.sign (Listing.price_per_night l))
          (Decimal.coefficient (Listing.price_per_night l)
           * Z.to_N (check_out - check_in))
          (-2).
Proof.
  intros Hv Hlid Hl Hci Hco Hn -> Hfresh [Hexp Hcoef] Hvci Hvco.
  apply validate_Ok_inv in Hv. rewrite Hlid in Hv.
  destruct Hv as (l' & Hl' & -> & Hdates).
  rewrite Hl in Hl'. injection Hl' as <-.
  destruct (Hdates check_in check_out Hci Hco) as [Hlt _].
  unfold create, objects_create. simpl.
  rewrite Hci, Hco, Hlid, Hn. simpl.
  unfold booking_constraints. simpl. rewrite Hl.
  rewrite bool_decide_eq_true_2 by done.
  destruct (Z.ltb_spec check_in check_out) as [_|]; [|lia].
  simpl. rewrite Hfresh.
  eexists _, _. split; [reflexivity|]. simpl.
  rewrite lookup_insert_eq.
  split_and!; [done | lia | done |].
  rewrite mul_int_nights_exact by done.
  by rewrite Hexp.
Qed.

(** A nightly rate of 100.00 from 2024-01-01 to 2024-01-04 gives 300.00. *)
Lemma create_total_price_exact_witness :
  ∃ db' b,
    create Sample.store Sample.alice 10%N
      (set_listing Sample.villa
         (Sample.request 1 (PyDate.ymd2ord 2024 1 1)
            (PyDate.ymd2ord 2024 1 4) 2))
    = Ok (db', b)
    ∧ Booking.total_price b = Decimal.mk false 30000 (-2).
Proof.
  destruct (create_total_price_exact Sample.store Sample.today Sample.alice
              7%N 10%N
              (Sample.request 1 (PyDate.ymd2ord 2024 1 1)
                 (PyDate.ymd2ord 2024 1 4) 2)
              (set_listing Sample.villa
                 (Sample.request 1 (PyDate.ymd2ord 2024 1 1)
                    (PyDate.ymd2ord 2024 1 4) 2))
              1%N Sample.villa (PyDate.ymd2ord 2024 1 1)
              (PyDate.ymd2ord 2024 1 4) 2)
    as (db' & b & Hc & _ & _ & _ & Hp);
    try reflexivity; try (by vm_compute).
  exists db', b. split; [exact Hc|]. rewrite Hp. reflexivity.
Defined.

(** C10: a booking created through the serializer has status [pending] and
    the total price computed from the listing's nightly rate and the nights
    between the two dates of the request; the outcome is the same for any
    two payloads that agree on the writable entries, so a status, total
    price, guest or listing object sent by the client changes nothing. *)
Theorem created_booking_ignores_read_only
    db today context partial new_id payload db' b :
  save db today context partial None new_id payload = Ok (db', b) →
  Booking.status b = pending
  ∧ (∃ lid l check_in check_out,
       listing_id payload = Some lid
       ∧ listings db !! lid = Some l
       ∧ check_in_date payload = Some check_in
       ∧ check_out_date payload = Some check_out
       ∧ Booking.duration_nights b = check_out - check_in
       ∧ Booking.total_price b
         = Decimal.mul_int (Listing.price_per_night l)
             (check_out - check_in))
  ∧ (∀ payload', same_writable_entries payload payload' →
       save db today context partial None new_id payload' = Ok (db', b)).
Proof.
  intros Hsave. split_and!.
  - apply save_Ok_unfold in Hsave as (vd & _ & Hv & Hsave).
    apply create_Ok_inv in Hsave
      as (l & ci & co & lid & _ & _ & _ & _ & _ & _ & _ & Hst & _).
    apply validate_Ok_inv in Hv. rewrite writable_entries_eq in Hv.
    simpl in Hv. rewrite Hst.
    destruct (listing_id payload); [|by subst vd].
    by destruct Hv as (? & _ & -> & _).
  - apply save_Ok_unfold in Hsave as (vd & _ & Hv & Hsave).
    apply create_Ok_inv in Hsave
      as (l & ci & co & lid & Hl & Hci & Hco & Hlid & _ & Hbi & Hbo & _
          & Hprice & _).
    apply validate_Ok_inv in Hv. rewrite writable_entries_eq in Hv.
    simpl in Hv.
    destruct (listing_id payload) as [lid'|]; [|by subst vd].
    destruct Hv as (l' & Hl' & -> & _). simpl in *.
    injection Hl as ->. injection Hlid as ->.
    exists lid, l, ci, co. split_and!; try done.
    unfold Booking.duration_nights, PyDate.days_between. by rewrite Hbi, Hbo.
  - intros payload' (H1 & H2 & H3 & H4 & H5).
    rewrite <- Hsave.
    unfold save, run_validation, to_internal_value, field_errors.
    rewrite !writable_entries_eq. by rewrite H1, H2, H3, H4, H5.
Qed.

(** A payload that asks for status [confirmed] and a total price of 1 for
    three nights at 100.00 is stored as [pending] at 300.00. *)
Lemma created_booking_ignores_read_only_witness :
  ∃ db' b,
    save Sample.store Sample.today Sample.alice false None 10%N
      Sample.forged_request = Ok (db', b)
    ∧ Booking.status b = pending
    ∧ Booking.total_price b = Decimal.mk false 30000 (-2).
Proof.
  eexists _, _.
  assert (save Sample.store Sample.today Sample.alice false None 10%N
            Sample.forged_request
          = Ok (mkDB (listings Sample.store)
                  (<[ 10%N := Booking.mk 1 7 (PyDate.ymd2ord 2024 1 1)
                                (PyDate.ymd2ord 2024 1 4) 2
                                (Decimal.mk false 30000 (-2)) pending None ]>
                     ∅) ∅,
                Booking.mk 1 7 (PyDate.ymd2ord 2024 1 1)
                  (PyDate.ymd2ord 2024 1 4) 2
                  (Decimal.mk false 30000 (-2)) pending None)) as Hs.
  { vm_compute. reflexivity. }
  split; [exact Hs|].
  destruct (created_booking_ignores_read_only _ _ _ _ _ _ _ _ Hs)
    as (Hst & _ & _).
  split; [exact Hst | reflexivity].
Defined.

End booking_pricing.

(** ** Review validation *)
Section review_validation.

Import ReviewSerializer.

Implicit Types (db : DB) (data : Data) (context : option Request).

Lemma validate_rating_Ok data :
  rating_passes data → validate_rating data = Ok tt.
Proof.
  intros Hr. unfold validate_rating, truthy_int.
  destruct (rating data) as [r|] eqn:Er; [|done]. simpl.
  destruct (Hr r Er) as [->|Hin]; [done|].
  destruct (Z.eqb_spec r 0); [lia|].
  destruct (Z.ltb_spec r 1); [lia|].
  destruct (Z.gtb_spec r 5); [lia|done].
Qed.

Lemma validate_listing_Ok db data :
  listing_found db data →
  ∃ data', validate_listing db data = Ok data'
           ∧ booking_id data' = booking_id data.
Proof.
  intros Hl. unfold validate_listing.
  destruct (listing_id data) as [lid|] eqn:El; [|by exists data].
  destruct (Hl lid El) as [l ->]. by exists (set_listing l data).
Qed.

(** [validate] once the rating and listing checks are passed and the
    booking named by the request is found. *)
Lemma validate_with_booking db context data bid b :
  rating_passes data → listing_found db data →
  booking_id data = Some bid → bookings db !! bid = Some b →
  ∃ data',
    validate db context data
    = (validate_owner context b;; Ok (set_booking b data')).
Proof.
  intros Hr Hl Hbid Hb. unfold validate.
  rewrite validate_rating_Ok by done. simpl.
  destruct (validate_listing_Ok db data Hl) as (data' & -> & Hbid').
  simpl. rewrite Hbid', Hbid, Hb. by exists data'.
Qed.

(** A row whose listing and booking are stored meets the foreign keys of
    the review table. *)
Lemma review_constraints_stored db row :
  is_Some (listings db !! Review.listing row) →
  (∀ bid, Review.booking row = Some bid → is_Some (bookings db !! bid)) →
  review_constraints db row = true.
Proof.
  intros Hl Hb. unfold review_constraints.
  rewrite bool_decide_eq_true_2 by done. simpl.
  destruct (Review.booking row) as [bid|]; [|done].
  apply bool_decide_eq_true_2. by apply Hb.
Qed.

(** [validate] never reads the stored reviews. *)
Lemma validate_ignores_reviews db context data rs :
  validate (mkDB (listings db) (bookings db) rs) context data
  = validate db context data.
Proof. reflexivity. Qed.

Lemma validate_not_duplicate db context data :
  validate db context data ≠ raise DuplicateReview.
Proof.
  unfold validate, validate_rating, validate_listing, validate_owner.
  destruct (truthy_int (rating data) && _); [done|]. simpl.
  destruct (listing_id data) as [lid|]; simpl.
  - destruct (listings db !! lid); [|done]. simpl.
    destruct (booking_id data) as [bid|]; [|done].
    destruct (bookings db !! bid); [|done].
    destruct context as [[[u|]]|]; try done. simpl.
    repeat case_bool_decide; done.
  - destruct (booking_id data) as [bid|]; [|done].
    destruct (bookings db !! bid); [|done].
    destruct context as [[[u|]]|]; try done. simpl.
    repeat case_bool_decide; done.
Qed.

(** C7, as the claim has it, fails: user 7 has already reviewed listing 1,
    and a second review request by user 7 for listing 1 passes [validate]. *)
Lemma second_review_passes_validate :
  (∃ k r, reviews Sample.reviewed !! k = Some r
          ∧ Review.listing r = 1%N ∧ Review.reviewer r = 7%N)
  ∧ validate Sample.reviewed Sample.alice (Sample.review_request 1 None 4)
    = Ok (set_listing Sample.villa (Sample.review_request 1 None 4)).
Proof.
  split; [|reflexivity].
  exists 20%N, (Review.mk 1 7 (Some 10%N) 5 "Great place"). done.
Qed.

(** C7 (amended): review validation has no duplicate check.  Its outcome
    does not depend on the stored reviews and is never [DuplicateReview].
    A second review by the same reviewer for the same listing is refused
    only when it is written, by the uniqueness constraint on (listing,
    reviewer), as an integrity error; a first review of a stored listing
    by a reviewer, resting on no booking or on a stored one, is not refused
    by that constraint and is stored. *)
Theorem duplicate_review_refused_at_write db context data u :
  context = Some {| req_user := Some (User u) |} →
  (∀ rs, validate (mkDB (listings db) (bookings db) rs) context data
         = validate db context data)
  ∧ validate db context data ≠ raise DuplicateReview
  ∧ (∀ new_id vd lid k r,
       listing_id vd = Some lid →
       reviews db !! k = Some r →
       Review.listing r = lid → Review.reviewer r = u →
       create db context new_id vd = Raise IntegrityError)
  ∧ (∀ new_id vd lid stars,
       listing_id vd = Some lid → rating vd = Some stars →
       is_Some (listings db !! lid) →
       (∀ bid, booking_id vd = Some bid → is_Some (bookings db !! bid)) →
       (∀ k r, reviews db !! k = Some r →
               ¬ (Review.listing r = lid ∧ Review.reviewer r = u)) →
       reviews db !! new_id = None →
       ∃ db' r, create db context new_id vd = Ok (db', r)
                ∧ reviews db' !! new_id = Some r
                ∧ Review.listing r = lid ∧ Review.reviewer r = u).
Proof.
  intros ->. split_and!.
  - intros rs. apply validate_ignores_reviews.
  - apply validate_not_duplicate.
  - intros new_id vd lid k r Hlid Hk Hrl Hrr.
    unfold create, objects_create. simpl. rewrite Hlid. simpl.
    destruct (rating vd) as [stars|]; [|done]. simpl.
    destruct (review_constraints db _); [|done]. simpl.
    set (q := filter _ (reviews db)).
    assert (qs_exists q = true) as ->; [|done].
    apply qs_exists_true. exists k, r. subst q.
    apply map_lookup_filter_Some. split; [done|].
    unfold Review.unique_together. simpl. done.
  - intros new_id vd lid stars Hlid Hstars Hl Hb Hnone Hfresh.
    unfold create, objects_create. simpl. rewrite Hlid, Hstars. simpl.
    rewrite review_constraints_stored by done. simpl.
    set (q := filter _ (reviews db)).
    assert (qs_exists q = false) as ->.
    { apply qs_exists_false. intros k. subst q.
      apply map_lookup_filter_None. right. intros r Hk [Hrl Hrr].
      simpl in Hrl, Hrr. by apply (Hnone k r). }
    rewrite Hfresh. eexists _, _. split; [reflexivity|]. simpl.
    by rewrite lookup_insert_eq.
Qed.

(** On the sample store, where user 7 has reviewed listing 1: writing the
    second review of user 7 raises the integrity error, and the first
    review of user 8 is stored. *)
Lemma duplicate_review_refused_at_write_witness :
  create Sample.reviewed Sample.alice 21%N
    (set_listing Sample.villa (Sample.review_request 1 None 4))
  = Raise IntegrityError
  ∧ ∃ db' r,
      create Sample.reviewed Sample.bob 21%N
        (set_listing Sample.villa (Sample.review_request 1 None 4))
      = Ok (db', r)
      ∧ Review.listing r = 1%N ∧ Review.reviewer r = 8%N.
Proof.
  split.
  - destruct (duplicate_review_refused_at_write Sample.reviewed Sample.alice
                (Sample.review_request 1 None 4) 7%N eq_refl)
      as (_ & _ & Hdup & _).
    apply (Hdup 21%N _ 1%N 20%N
             (Review.mk 1 7 (Some 10%N) 5 "Great place"));
      reflexivity.
  - destruct (duplicate_review_refused_at_write Sample.reviewed Sample.bob
                (Sample.review_request 1 None 4) 8%N eq_refl)
      as (_ & _ & _ & Hfirst).
    assert (∀ k r, reviews Sample.reviewed !! k = Some r →
                   ¬ (Review.listing r = 1%N ∧ Review.reviewer r = 8%N))
      as Hnone.
    { intros k r Hk [_ Hrr].
      destruct (decide (k = 20%N)) as [->|Hne].
      - vm_compute in Hk. injection Hk as <-. done.
      - unfold Sample.reviewed in Hk. simpl in Hk.
        by rewrite lookup_insert_ne, lookup_empty in Hk. }
    destruct (Hfirst 21%N
                (set_listing Sample.villa (Sample.review_request 1 None 4))
                1%N 4 eq_refl eq_refl (mk_is_Some _ _ eq_refl)
                ltac:(intros ? [=]) Hnone eq_refl)
      as (db' & r & Hc & _ & Hrl & Hrr).
    by exists db', r.
Defined.

Lemma review_writable_entries_eq payload :
  writable_entries payload
  = mkData (listing_id payload) (booking_id payload) (rating payload)
      (comment payload) None None None.
Proof. reflexivity. Qed.

(** What a payload that passes field-level validation is like. *)
Lemma review_to_internal_value_Ok partial payload data :
  to_internal_value partial payload = Ok data →
  data = writable_entries payload
  ∧ (∀ r, rating payload = Some r → 1 ≤ r ≤ 5).
Proof.
  unfold to_internal_value.
  destruct (field_errors partial payload) eqn:He; [|done].
  intros [= <-]. split; [done|]. intros r Hr.
  unfold field_errors in He. rewrite Hr in He.
  apply app_eq_nil in He as [_ He]. apply app_eq_nil in He as [_ He].
  apply app_eq_nil in He as [Hmin He]. apply app_eq_nil in He as [Hmax _].
  unfold check_min_value in Hmin. unfold check_max_value in Hmax.
  destruct (Z.ltb_spec r 1); [done|].
  destruct (Z.ltb_spec 5 r); [done|]. lia.
Qed.

(** [run_validation] on a payload that passes field-level validation, names
    a stored listing and a stored booking. *)
Lemma run_validation_with_booking db context partial payload bid b :
  to_internal_value partial payload = Ok (writable_entries payload) →
  listing_found db payload →
  booking_id payload = Some bid → bookings db !! bid = Some b →
  ∃ data',
    run_validation db context partial payload
    = (validate_owner context b;; Ok (set_booking b data')).
Proof.
  intros Hfield Hl Hbid Hb.
  destruct (review_to_internal_value_Ok _ _ _ Hfield) as [_ Hrange].
  unfold run_validation. rewrite Hfield. simpl.
  apply (validate_with_booking db context (writable_entries payload) bid b);
    rewrite ?review_writable_entries_eq; try done.
  intros r Hr. right. by apply Hrange.
Qed.

(** C8: a review request with a rating outside [1,5] is refused: the
    rating field's [MinValueValidator(1)] and [MaxValueValidator(5)] report
    it before [validate] runs, and [validate] has the test once more for
    the non-zero ratings, with [InvalidRating].  On a request that passes
    field-level validation and names a stored listing and a stored booking,
    in the context of a request with a user, validation fails with
    [NotBookingOwner] when the booking's guest is not that user, with
    [BookingNotCompleted] when the guest is that user and the status is not
    [completed], and succeeds when the guest is that user and the status
    is [completed]. *)
Theorem review_validation_checks db context partial payload :
  (∀ r, rating payload = Some r → r < 1 ∨ 5 < r →
        ∃ errors,
          run_validation db context partial payload
          = Raise (FieldErrors errors)
          ∧ (("rating", MinValue) ∈ errors ∨ ("rating", MaxValue) ∈ errors))
  ∧ (∀ r, rating payload = Some r → r ≠ 0 → r < 1 ∨ 5 < r →
          validate db context payload = raise InvalidRating)
  ∧ (∀ u bid b,
       to_internal_value partial payload = Ok (writable_entries payload) →
       listing_found db payload →
       context = Some {| req_user := Some u |} →
       booking_id payload = Some bid → bookings db !! bid = Some b →
       (User (Booking.guest b) ≠ u →
        run_validation db context partial payload = raise NotBookingOwner)
       ∧ (User (Booking.guest b) = u → Booking.status b ≠ completed →
          run_validation db context partial payload
          = raise BookingNotCompleted)
       ∧ (User (Booking.guest b) = u → Booking.status b = completed →
          ∃ vd, run_validation db context partial payload = Ok vd
                ∧ booking vd = Some b)).
Proof.
  split_and!.
  - intros r Hr Hout.
    assert (("rating", MinValue) ∈ field_errors partial payload
            ∨ ("rating", MaxValue) ∈ field_errors partial payload) as Hin.
    { unfold field_errors. rewrite Hr. simpl.
      destruct Hout as [Hlow|Hhigh].
      - left. destruct (Z.ltb_spec r 1); [|lia]. set_solver.
      - right. destruct (Z.ltb_spec 5 r); [|lia]. set_solver. }
    unfold run_validation, to_internal_value.
    destruct (field_errors partial payload) as [|e errors].
    + destruct Hin as [Hin|Hin]; by apply elem_of_nil in Hin.
    + simpl. by eexists.
  - intros r Hr Hnz Hout. unfold validate, validate_rating, truthy_int.
    rewrite Hr. simpl.
    destruct (Z.eqb_spec r 0); [done|]. simpl.
    destruct (Z.ltb_spec r 1); [done|].
    destruct (Z.gtb_spec r 5); [done|lia].
  - intros u bid b Hfield Hl -> Hbid Hb.
    destruct (run_validation_with_booking db
                (Some {| req_user := Some u |}) partial payload bid b
                Hfield Hl Hbid Hb) as (data' & ->).
    unfold validate_owner. simpl. split_and!.
    + intros Hne. by rewrite bool_decide_eq_true_2.
    + intros Heq Hst.
      rewrite bool_decide_eq_false_2 by (by intros ?).
      by rewrite bool_decide_eq_true_2.
    + intros Heq Hst.
      rewrite bool_decide_eq_false_2 by (by intros ?).
      rewrite bool_decide_eq_false_2 by (by intros ?).
      by eexists.
Qed.

(** On the sample store: a rating of 6 is refused by the field; user 7
    reviewing the pending stay of user 8 is refused as not the owner, and
    user 8 reviewing that pending stay is refused as not completed. *)
Lemma review_validation_checks_witness :
  (∃ errors,
     run_validation Sample.reviewed Sample.alice false
       (Sample.review_request 1 (Some 11%N) 6)
     = Raise (FieldErrors errors)
     ∧ (("rating", MinValue) ∈ errors ∨ ("rating", MaxValue) ∈ errors))
  ∧ run_validation Sample.reviewed Sample.alice false
      (Sample.review_request 1 (Some 11%N) 4) = raise NotBookingOwner
  ∧ run_validation Sample.reviewed Sample.bob false
      (Sample.review_request 1 (Some 11%N) 4) = raise BookingNotCompleted.
Proof.
  assert (listing_found Sample.reviewed
            (Sample.review_request 1 (Some 11%N) 4)) as Hl.
  { intros lid [= <-]. by eexists. }
  split_and!.
  - destruct (review_validation_checks Sample.reviewed Sample.alice false
                (Sample.review_request 1 (Some 11%N) 6)) as (Hfield & _).
    apply (Hfield 6 eq_refl). lia.
  - destruct (review_validation_checks Sample.reviewed Sample.alice false
                (Sample.review_request 1 (Some 11%N) 4)) as (_ & _ & Hbk).
    destruct (Hbk (User 7) 11%N Sample.second_stay eq_refl Hl eq_refl
                eq_refl eq_refl) as (Hown & _ & _).
    apply Hown. by intros [=].
  - destruct (review_validation_checks Sample.reviewed Sample.bob false
                (Sample.review_request 1 (Some 11%N) 4)) as (_ & _ & Hbk).
    destruct (Hbk (User 8) 11%N Sample.second_stay eq_refl Hl eq_refl
                eq_refl eq_refl) as (_ & Hdone & _).
    apply Hdone; [reflexivity | by intros [=]].
Defined.

(** A request whose user is the anonymous one still has the [user]
    attribute, so the ownership check runs and refuses it. *)
Lemma anonymous_user_not_owner db data bid b :
  rating_passes data → listing_found db data →
  booking_id data = Some bid → bookings db !! bid = Some b →
  validate db (Some {| req_user := Some AnonymousUser |}) data
  = raise NotBookingOwner.
Proof.
  intros Hr Hl Hbid Hb.
  by destruct (validate_with_booking db
                 (Some {| req_user := Some AnonymousUser |}) data bid b
                 Hr Hl Hbid Hb) as (data' & ->).
Qed.

(** C9, as the claim has it, fails: a request that nobody has signed in
    for carries the anonymous user, and its review naming the pending stay
    of user 8 is refused with [NotBookingOwner], by [validate] and so by
    the whole validation. *)
Lemma anonymous_review_refused :
  Booking.status Sample.second_stay = pending
  ∧ validate Sample.reviewed Sample.anonymous
      (Sample.review_request 1 (Some 11%N) 4) = raise NotBookingOwner
  ∧ run_validation Sample.reviewed Sample.anonymous false
      (Sample.review_request 1 (Some 11%N) 4) = raise NotBookingOwner.
Proof. split_and!; reflexivity. Qed.

(** C9 (amended): the ownership and completion checks are skipped only
    when the context carries no request, or a request without the [user]
    attribute: then, for any stored booking named by the request, whoever
    its guest and whatever its status, validation succeeds once the field,
    rating and listing checks are passed.  A request whose user is the
    anonymous one is not skipped: it is refused with [NotBookingOwner],
    whoever the guest of the booking and whatever its status. *)
Theorem review_checks_skipped_without_user
    db context partial payload bid b :
  to_internal_value partial payload = Ok (writable_entries payload) →
  listing_found db payload →
  booking_id payload = Some bid → bookings db !! bid = Some b →
  (context = None ∨ context = Some {| req_user := None |} →
   ∃ vd, run_validation db context partial payload = Ok vd
         ∧ booking vd = Some b)
  ∧ (context = Some {| req_user := Some AnonymousUser |} →
     run_validation db context partial payload = raise NotBookingOwner).
Proof.
  intros Hfield Hl Hbid Hb.
  destruct (run_validation_with_booking db context partial payload bid b
              Hfield Hl Hbid Hb) as (data' & ->).
  split.
  - intros [-> | ->]; by eexists.
  - by intros ->.
Qed.

(** On the sample store: without a request, a review that names the pending
    stay of user 8 is accepted; on a request of the anonymous user it is
    refused. *)
Lemma review_checks_skipped_without_user_witness :
  Booking.status Sample.second_stay = pending
  ∧ (∃ vd, run_validation Sample.reviewed Sample.no_request false
             (Sample.review_request 1 (Some 11%N) 4) = Ok vd
           ∧ booking vd = Some Sample.second_stay)
  ∧ run_validation Sample.reviewed Sample.anonymous false
      (Sample.review_request 1 (Some 11%N) 4) = raise NotBookingOwner.
Proof.
  assert (listing_found Sample.reviewed
            (Sample.review_request 1 (Some 11%N) 4)) as Hl.
  { intros lid [= <-]. by eexists. }
  split; [reflexivity|]. split.
  - destruct (review_checks_skipped_without_user Sample.reviewed
                Sample.no_request false
                (Sample.review_request 1 (Some 11%N) 4)
                11%N Sample.second_stay eq_refl Hl eq_refl eq_refl)
      as [Hskip _].
    apply Hskip. by left.
  - destruct (review_checks_skipped_without_user Sample.reviewed
                Sample.anonymous false
                (Sample.review_request 1 (Some 11%N) 4)
                11%N Sample.second_stay eq_refl Hl eq_refl eq_refl)
      as [_ Hanon].
    by apply Hanon.
Defined.

End review_validation.

(** * Further properties *)

(** ** Bookings through the serializer *)
Section booking_requests.

Import BookingSerializer.

Implicit Types (db : DB) (data : Data) (instance : option (N * Booking.t)).

(** Everything a successful creation has checked and stored. *)
Lemma save_create_Ok_inv db today context partial new_id payload db' b :
  save db today context partial None new_id payload = Ok (db', b) →
  ∃ lid l check_in check_out n g,
    listing_id payload = Some lid
    ∧ listings db !! lid = Some l
    ∧ Listing.is_available l = true
    ∧ check_in_date payload = Some check_in
    ∧ check_out_date payload = Some check_out
    ∧ number_of_guests payload = Some n
    ∧ check_in < check_out ∧ today ≤ check_in
    ∧ (n = 0 ∨ n ≤ Listing.max_guests l)
    ∧ context = Some {| req_user := Some (User g) |}
    ∧ bookings db !! new_id = None
    ∧ b = Booking.mk lid g check_in check_out n
            (Decimal.mul_int (Listing.price_per_night l)
               (check_out - check_in))
            pending (special_requests payload)
    ∧ db' = mkDB (listings db) (<[new_id := b]> (bookings db)) (reviews db).
Proof.
  intros Hsave. apply save_Ok_unfold in Hsave as (vd & _ & Hv & Hsave).
  assert (validate db today None (writable_entries payload)
          ≫= create db context new_id = Ok (db', b)) as Hrun.
  { by rewrite Hv. }
  clear vd Hv Hsave. revert Hrun. rewrite writable_entries_eq.
  set (data := mkData _ _ _ _ _ _ _ _ _).
  destruct (validate_dates today data) as [[]|e] eqn:Hd;
    [|by unfold validate; rewrite Hd].
  rewrite validate_after_dates by done.
  apply validate_dates_Ok in Hd. unfold dates_pass in Hd.
  subst data. simpl in *.
  destruct (listing_id payload) as [lid|] eqn:Hlid; simpl;
    [|by unfold create; destruct context as [[[u|]]|]].
  destruct (listings db !! lid) as [l|] eqn:Hl; [|done].
  destruct (Listing.is_available l) eqn:Hav; [|done]. simpl.
  assert (∀ n, number_of_guests payload = Some n →
            truthy_int (Some n) && (n >? Listing.max_guests l) = false →
            n = 0 ∨ n ≤ Listing.max_guests l) as Hcap.
  { intros n _. simpl. destruct (Z.eqb_spec n 0); [by left|]. simpl.
    destruct (Z.gtb_spec n (Listing.max_guests l)); [done|]. right. lia. }
  destruct (number_of_guests payload) as [n|] eqn:Hn.
  - specialize (Hcap n eq_refl).
    change (default 0 (Some n)) with n.
    destruct (truthy_int (Some n) && (n >? Listing.max_guests l));
      [done|].
    specialize (Hcap eq_refl).
    destruct (check_in_date payload) as [ci|] eqn:Hci;
      [|by simpl; unfold create; destruct context as [[[u|]]|]].
    destruct (check_out_date payload) as [co|] eqn:Hco;
      [|by simpl; unfold create; destruct context as [[[u|]]|]].
    destruct (qs_exists _); [done|].
    destruct (Hd ci co eq_refl eq_refl).
    simpl. unfold create, objects_create.
    destruct context as [[[[|g]|]]|]; try done. simpl.
    rewrite ?Hlid, ?Hci, ?Hco, ?Hn. simpl.
    destruct (booking_constraints db _); [|done]. simpl.
    destruct (bookings db !! new_id) eqn:Hfresh; [done|].
    intros [= <- <-].
    exists lid, l, ci, co, n, g. split_and!; done.
  - simpl.
    destruct (check_in_date payload) as [ci|] eqn:Hci;
      [|by simpl; unfold create; destruct context as [[[u|]]|]].
    destruct (check_out_date payload) as [co|] eqn:Hco;
      [|by simpl; unfold create; destruct context as [[[u|]]|]].
    destruct (qs_exists _); [done|].
    simpl. unfold create, objects_create.
    destruct context as [[[[|g]|]]|]; done.
Qed.

(** X1: from a store without overlapping active bookings, an accepted
    creation, and an accepted update that carries the listing and both
    dates, lead to a store without overlapping active bookings. *)
Theorem accepted_request_keeps_no_overlap
    db today context partial instance new_id payload db' b :
  no_overlap db →
  instance = None
  ∨ (is_Some instance ∧ is_Some (listing_id payload)
     ∧ is_Some (check_in_date payload) ∧ is_Some (check_out_date payload)) →
  save db today context partial instance new_id payload = Ok (db', b) →
  no_overlap db'.
Proof.
  intros Hinv [->|([[pk old] ->] & Hl & Hci & Hco)] Hsave.
  - by eapply no_overlap_create.
  - by eapply no_overlap_full_update.
Qed.

Lemma accepted_request_keeps_no_overlap_witness :
  no_overlap Sample.store1 ∧ no_overlap Sample.store2.
Proof.
  assert (no_overlap Sample.store1) as H1.
  { eapply (accepted_request_keeps_no_overlap Sample.store Sample.today
              Sample.alice false None 10%N
              (Sample.request 1 (Sample.june 1) (Sample.june 10) 2));
      [by apply no_overlap_empty | by left | vm_compute; reflexivity]. }
  split; [exact H1|].
  eapply (accepted_request_keeps_no_overlap Sample.store1 Sample.today
            Sample.bob false None 11%N
            (Sample.request 1 (Sample.june 10) (Sample.june 15) 2));
    [exact H1 | by left | vm_compute; reflexivity].
Defined.

(** X2: [validate] answers "Invalid listing ID." exactly when the date
    checks let the request through and the request names a listing that is
    not stored; nothing else about the request or the instance matters. *)
Theorem listing_not_found_iff db today instance data :
  validate db today instance data = raise ListingNotFound
  ↔ dates_pass today data
    ∧ ∃ lid, listing_id data = Some lid ∧ listings db !! lid = None.
Proof.
  rewrite <- validate_dates_Ok. split.
  - destruct (validate_dates today data) as [[]|e] eqn:Hd.
    + rewrite validate_after_dates by done. intros Hv. split; [done|].
      destruct (listing_id data) as [lid|]; [|done].
      exists lid. split; [done|].
      destruct (listings db !! lid) as [l|]; [|done]. exfalso.
      destruct (negb (Listing.is_available l)); [done|].
      destruct (truthy_int (number_of_guests data)
                && (default 0 (number_of_guests data)
                    >? Listing.max_guests l)); [done|].
      destruct (check_in_date data), (check_out_date data); try done.
      by destruct (qs_exists _).
    + unfold validate. rewrite Hd. simpl. intros [= ->].
      unfold validate_dates in Hd.
      destruct (check_in_date data) as [ci|]; [|done].
      destruct (check_out_date data) as [co|]; [|done].
      destruct (co <=? ci); [done|]. by destruct (ci <? today).
  - intros (Hd & lid & Hlid & Hnone).
    rewrite validate_after_dates by done. by rewrite Hlid, Hnone.
Qed.

(** X3: a creation whose request names no listing is never stored.  An
    ordinary creation is refused by field-level validation, which reports
    "This field is required." for [listing_id].  With [partial=True], when
    the dates pass and the number of guests is at least 1, the request
    passes validation and fails in [create] with [KeyError] on
    ['listing']. *)
Theorem create_without_listing_raises
    db today context partial new_id payload :
  listing_id payload = None →
  (∃ errors,
     save db today context false None new_id payload
     = Raise (FieldErrors errors)
     ∧ ("listing_id", Required) ∈ errors)
  ∧ (dates_pass today payload →
     (∀ n, number_of_guests payload = Some n → 1 ≤ n) →
     run_validation db today true None payload
     = Ok (writable_entries payload)
     ∧ save db today context true None new_id payload
       = Raise (KeyError "listing"))
  ∧ (∀ db' b,
       save db today context partial None new_id payload ≠ Ok (db', b)).
Proof.
  intros Hlid. split_and!.
  - unfold save, run_validation, to_internal_value, field_errors.
    rewrite Hlid. simpl. eexists. split; [reflexivity|]. by left.
  - intros Hd Hn.
    assert (run_validation db today true None payload
            = Ok (writable_entries payload)) as Hv.
    { unfold run_validation. rewrite to_internal_value_partial by done.
      simpl. rewrite validate_after_dates.
      - rewrite writable_entries_eq. simpl. by rewrite Hlid.
      - apply validate_dates_Ok. rewrite writable_entries_eq.
        intros ci co Hci Hco. by apply Hd. }
    split; [exact Hv|].
    unfold save. rewrite Hv. simpl. unfold create.
    rewrite writable_entries_eq.
    by destruct context as [[[u|]]|].
  - intros db' b Hsave.
    apply save_create_Ok_inv in Hsave as (lid & ? & ? & ? & ? & ? & Hl & _).
    by rewrite Hlid in Hl.
Qed.

Lemma create_without_listing_raises_witness :
  save Sample.store Sample.today Sample.alice false None 10%N
    (Sample.new_dates (Sample.june 1) (Sample.june 10))
  = Raise (FieldErrors [("listing_id", Required);
                        ("number_of_guests", Required)])
  ∧ save Sample.store Sample.today Sample.alice true None 10%N
      (Sample.new_dates (Sample.june 1) (Sample.june 10))
    = Raise (KeyError "listing").
Proof.
  destruct (create_without_listing_raises Sample.store Sample.today
              Sample.alice true 10%N
              (Sample.new_dates (Sample.june 1) (Sample.june 10)) eq_refl)
    as (_ & Hpartial & _).
  split; [reflexivity|].
  apply Hpartial; [|done].
  intros ci co [= <-] [= <-]. by vm_compute.
Defined.

(** X4: an accepted creation stores exactly one new row under a key that
    was free and touches nothing else: the other bookings, the listings and
    the reviews are as before.  The guest of the new row is the user of the
    request, whatever guest the payload names. *)
Theorem create_stores_one_row
    db today context partial new_id payload db' b :
  save db today context partial None new_id payload = Ok (db', b) →
  bookings db !! new_id = None
  ∧ bookings db' !! new_id = Some b
  ∧ (∀ k, k ≠ new_id → bookings db' !! k = bookings db !! k)
  ∧ listings db' = listings db
  ∧ reviews db' = reviews db
  ∧ context = Some {| req_user := Some (User (Booking.guest b)) |}
  ∧ Some (Booking.number_of_guests b) = number_of_guests payload
  ∧ Booking.special_requests b = special_requests payload.
Proof.
  intros Hsave.
  apply save_create_Ok_inv in Hsave
    as (lid & l & ci & co & n & g & _ & _ & _ & _ & _ & Hn & _ & _ & _
        & -> & Hfresh & -> & ->).
  simpl. split_and!; try done.
  - by rewrite lookup_insert_eq.
  - intros k Hk. by rewrite lookup_insert_ne.
Qed.

Lemma create_stores_one_row_witness :
  bookings Sample.store2 !! 11%N = Some Sample.second_stay
  ∧ bookings Sample.store2 !! 10%N = bookings Sample.store1 !! 10%N.
Proof.
  destruct (create_stores_one_row Sample.store1 Sample.today Sample.bob
              false 11%N (Sample.request 1 (Sample.june 10) (Sample.june 15) 2)
              Sample.store2 Sample.second_stay)
    as (_ & Hnew & Hold & _); [vm_compute; reflexivity|].
  split; [exact Hnew | by apply Hold].
Defined.

(** X5: an accepted update writes the instance back under its key with the
    entries of the request and leaves its status, its total price and its
    guest as they were: the total price is not computed again when the
    dates change.  No other row is touched. *)
Theorem update_keeps_read_only_columns
    db today context partial pk old new_id payload db' b :
  save db today context partial (Some (pk, old)) new_id payload
  = Ok (db', b) →
  Booking.status b = Booking.status old
  ∧ Booking.total_price b = Booking.total_price old
  ∧ Booking.guest b = Booking.guest old
  ∧ Booking.check_in_date b
    = default (Booking.check_in_date old) (check_in_date payload)
  ∧ Booking.check_out_date b
    = default (Booking.check_out_date old) (check_out_date payload)
  ∧ Booking.listing b = default (Booking.listing old) (listing_id payload)
  ∧ bookings db' = <[pk := b]> (bookings db)
  ∧ listings db' = listings db
  ∧ reviews db' = reviews db.
Proof.
  intros Hup. apply save_Ok_unfold in Hup as (vd & _ & Hv & Hup).
  apply validate_Ok_inv in Hv. rewrite writable_entries_eq in Hv.
  simpl in Hv.
  assert (guest vd = None ∧ status vd = None ∧ total_price vd = None
          ∧ check_in_date vd = check_in_date payload
          ∧ check_out_date vd = check_out_date payload
          ∧ listing_id vd = listing_id payload)
    as (Hg & Hs & Hp & Hci & Hco & Hlid).
  { destruct (listing_id payload).
    - by destruct Hv as (l & _ & -> & _).
    - by subst vd. }
  unfold update in Hup. rewrite Hg, Hs, Hp, Hci, Hco, Hlid in Hup.
  simpl in Hup.
  destruct (booking_constraints db _); [|done]. simpl in Hup.
  by injection Hup as <- <-.
Qed.

Lemma update_keeps_read_only_columns_witness :
  Booking.total_price Sample.moved_stay
  = Booking.total_price Sample.second_stay
  ∧ Booking.duration_nights Sample.second_stay = 5
  ∧ Booking.duration_nights Sample.moved_stay = 7.
Proof.
  destruct (update_keeps_read_only_columns Sample.store2 Sample.today
              Sample.bob true 11%N Sample.second_stay 12%N
              (Sample.new_dates (Sample.june 5) (Sample.june 12))
              Sample.store3 Sample.moved_stay)
    as (_ & Hprice & _); [vm_compute; reflexivity|].
  split; [exact Hprice|]. split; reflexivity.
Defined.

(** X6: every booking stored by an accepted creation passes
    [Booking.clean] for the listing it names. *)
Theorem created_booking_passes_clean
    db today context partial new_id payload db' b :
  save db today context partial None new_id payload = Ok (db', b) →
  ∃ l, listings db' !! Booking.listing b = Some l
       ∧ Booking.clean l b = inr tt.
Proof.
  intros Hsave.
  apply save_create_Ok_inv in Hsave
    as (lid & l & ci & co & n & g & _ & Hl & _ & _ & _ & _ & Hlt & _ & Hn
        & _ & _ & -> & ->).
  exists l. split; [done|]. unfold Booking.clean. simpl.
  destruct (Z.leb_spec co ci); [lia|].
  destruct (Z.eqb_spec n 0); [done|]. simpl.
  destruct (Z.gtb_spec n (Listing.max_guests l)); [lia|done].
Qed.

Lemma created_booking_passes_clean_witness :
  Booking.clean Sample.villa Sample.second_stay = inr tt.
Proof.
  destruct (created_booking_passes_clean Sample.store1 Sample.today
              Sample.bob false 11%N
              (Sample.request 1 (Sample.june 10) (Sample.june 15) 2)
              Sample.store2 Sample.second_stay)
    as (l & Hl & Hclean); [vm_compute; reflexivity|].
  vm_compute in Hl. injection Hl as <-. exact Hclean.
Defined.

(** X7: a partial update whose request names no listing and lacks one of
    the two dates passes validation whatever the date it carries: no check
    of [validate] applies to it.  The write then stores the date over the
    old one when the row's check-out stays after its check-in, and is
    refused with an integrity error, by the constraint
    [check_out_after_check_in], when it does not. *)
Theorem one_date_update_unchecked
    db today context pk old new_id payload :
  listing_id payload = None →
  check_in_date payload = None ∨ check_out_date payload = None →
  (∀ n, number_of_guests payload = Some n → 1 ≤ n) →
  run_validation db today true (Some (pk, old)) payload
  = Ok (writable_entries payload)
  ∧ (is_Some (listings db !! Booking.listing old) →
     default (Booking.check_in_date old) (check_in_date payload)
     < default (Booking.check_out_date old) (check_out_date payload) →
     ∃ db' b,
       save db today context true (Some (pk, old)) new_id payload
       = Ok (db', b)
       ∧ bookings db' !! pk = Some b
       ∧ Booking.check_in_date b
         = default (Booking.check_in_date old) (check_in_date payload)
       ∧ Booking.check_out_date b
         = default (Booking.check_out_date old) (check_out_date payload))
  ∧ (default (Booking.check_out_date old) (check_out_date payload)
     ≤ default (Booking.check_in_date old) (check_in_date payload) →
     save db today context true (Some (pk, old)) new_id payload
     = Raise IntegrityError).
Proof.
  intros Hlid Hdate Hn.
  assert (run_validation db today true (Some (pk, old)) payload
          = Ok (writable_entries payload)) as Hv.
  { unfold run_validation. rewrite to_internal_value_partial by done.
    simpl. rewrite validate_after_dates.
    - rewrite writable_entries_eq. simpl. by rewrite Hlid.
    - rewrite writable_entries_eq. unfold validate_dates. simpl.
      destruct Hdate as [-> | ->]; [done|].
      by destruct (check_in_date payload). }
  split; [exact Hv|].
  unfold save. rewrite Hv. simpl. unfold update.
  rewrite writable_entries_eq. simpl. rewrite Hlid. simpl.
  unfold booking_constraints. simpl. split.
  - intros Hl Hlt. rewrite bool_decide_eq_true_2 by done.
    destruct (Z.ltb_spec
                (default (Booking.check_in_date old) (check_in_date payload))
                (default (Booking.check_out_date old)
                   (check_out_date payload))) as [_|]; [|lia].
    simpl. eexists _, _. split; [reflexivity|]. simpl.
    by rewrite lookup_insert_eq.
  - intros Hle.
    destruct (Z.ltb_spec
                (default (Booking.check_in_date old) (check_in_date payload))
                (default (Booking.check_out_date old)
                   (check_out_date payload))) as [|_]; [lia|].
    by rewrite andb_false_r.
Qed.

(** The second sample stay, 10 to 15 June 2024: on 1 January 2024 a
    check-in date of 25 December 2023 alone is written over the stored
    one, and a check-in date of 20 June alone is refused by the table. *)
Lemma one_date_update_unchecked_witness :
  (∃ db' b,
     save Sample.store2 Sample.today Sample.bob true
       (Some (11%N, Sample.second_stay)) 12%N
       (Sample.only_check_in (PyDate.ymd2ord 2023 12 25)) = Ok (db', b)
     ∧ Booking.check_in_date b = PyDate.ymd2ord 2023 12 25)
  ∧ save Sample.store2 Sample.today Sample.bob true
      (Some (11%N, Sample.second_stay)) 12%N
      (Sample.only_check_in (Sample.june 20)) = Raise IntegrityError.
Proof.
  split.
  - destruct (one_date_update_unchecked Sample.store2 Sample.today
                Sample.bob 11%N Sample.second_stay 12%N
                (Sample.only_check_in (PyDate.ymd2ord 2023 12 25)))
      as (_ & Hstore & _); [reflexivity | by right | done |].
    destruct Hstore as (db' & b & Hsave & _ & Hci & _);
      [by eexists | by vm_compute |].
    exists db', b. split; [exact Hsave | exact Hci].
  - destruct (one_date_update_unchecked Sample.store2 Sample.today
                Sample.bob 11%N Sample.second_stay 12%N
                (Sample.only_check_in (Sample.june 20)))
      as (_ & _ & Hrefuse); [reflexivity | by right | done |].
    apply Hrefuse. by vm_compute.
Defined.

(** X8: in a store without overlapping active bookings, a request that
    restates the listing and the dates of a stored active booking is
    accepted as an update of that booking, since the conflict query leaves
    the instance out, and refused with the conflict error as a creation. *)
Theorem restated_dates_conflict_only_on_create
    db today pk old data l n :
  no_overlap db →
  bookings db !! pk = Some old → active old →
  listing_id data = Some (Booking.listing old) →
  check_in_date data = Some (Booking.check_in_date old) →
  check_out_date data = Some (Booking.check_out_date old) →
  number_of_guests data = Some n →
  listings db !! Booking.listing old = Some l →
  Listing.is_available l = true →
  n = 0 ∨ n ≤ Listing.max_guests l →
  Booking.check_in_date old < Booking.check_out_date old →
  today ≤ Booking.check_in_date old →
  validate db today (Some (pk, old)) data = Ok (set_listing l data)
  ∧ validate db today None data = raise DateRangeConflict.
Proof.
  intros Hinv Hold Hact Hlid Hci Hco Hn Hl Hav Hcap Hlt Htoday.
  assert (negb (n =? 0) && (n >? Listing.max_guests l) = false) as Hcap'.
  { destruct (Z.eqb_spec n 0); [done|]. simpl.
    destruct (Z.gtb_spec n (Listing.max_guests l)); [lia|done]. }
  rewrite !(validate_complete db today _ data (Booking.listing old) l
              (Booking.check_in_date old) (Booking.check_out_date old) n)
    by done.
  destruct (Z.leb_spec (Booking.check_out_date old)
              (Booking.check_in_date old)); [lia|].
  destruct (Z.ltb_spec (Booking.check_in_date old) today); [lia|].
  rewrite Hav, Hcap'. simpl.
  assert (qs_exists (overlapping_bookings db (Some (pk, old))
                       (Booking.listing old) (Booking.check_in_date old)
                       (Booking.check_out_date old)) = false) as ->.
  { apply qs_exists_false. intros k.
    destruct (overlapping_bookings _ _ _ _ _ !! k) as [b|] eqn:Hk; [|done].
    apply overlapping_bookings_lookup in Hk
      as (Hb & Hbl & Hba & H1 & H2 & Hne).
    specialize (Hne _ eq_refl). simpl in Hne.
    destruct (Hinv k pk b old Hb Hold Hne Hbl Hba Hact). split; lia. }
  assert (qs_exists (overlapping_bookings db None
                       (Booking.listing old) (Booking.check_in_date old)
                       (Booking.check_out_date old)) = true) as ->; [|done].
  apply qs_exists_true. exists pk, old.
  apply overlapping_bookings_lookup. split_and!; try done; try lia.
Qed.

(** The second sample stay restated: accepted as its own update, in
    conflict as a new booking. *)
Lemma restated_dates_conflict_only_on_create_witness :
  validate Sample.store2 Sample.today (Some (11%N, Sample.second_stay))
    (Sample.request 1 (Sample.june 10) (Sample.june 15) 2)
  = Ok (set_listing Sample.villa
          (Sample.request 1 (Sample.june 10) (Sample.june 15) 2))
  ∧ validate Sample.store2 Sample.today None
      (Sample.request 1 (Sample.june 10) (Sample.june 15) 2)
    = raise DateRangeConflict.
Proof.
  apply (restated_dates_conflict_only_on_create Sample.store2 Sample.today
           11%N Sample.second_stay
           (Sample.request 1 (Sample.june 10) (Sample.june 15) 2)
           Sample.villa 2);
    first [ exact sample_no_overlap | reflexivity | by left
          | right; simpl; lia | by vm_compute ].
Defined.

End booking_requests.

(** ** Listing validation *)
Section listing_validation.

Import ListingSerializer.

Lemma decimal_rejected_false x :
  decimal_rejected x = false ↔ decimal_not_negative x.
Proof.
  unfold decimal_rejected, decimal_not_negative, Decimal.le_zero,
    Decimal.is_zero.
  destruct x as [d|]; [|split; [|done]; by intros _ ?].
  destruct (N.eqb_spec (Decimal.coefficient d) 0) as [Hz|Hnz]; simpl.
  - split; [|done]. intros _ ? [= <-]. by right.
  - destruct (Decimal.sign d) eqn:Hs.
    + split; [done|]. intros Hd. destruct (Hd d eq_refl); congruence.
    + split; [|done]. intros _ ? [= <-]. left. done.
Qed.

Lemma int_rejected_false x : int_rejected x = false ↔ not_negative x.
Proof.
  unfold int_rejected, not_negative, truthy_int.
  destruct x as [n|]; [|split; [|done]; by intros _ ?]. simpl.
  destruct (Z.eqb_spec n 0) as [->|Hnz]; simpl.
  - split; [|done]. by intros _ ? [= <-].
  - destruct (Z.leb_spec n 0).
    + split; [done|]. intros Hn. specialize (Hn n eq_refl). lia.
    + split; [|done]. intros _ ? [= <-]. lia.
Qed.

(** X9: [ListingSerializer.validate] accepts exactly the data in which no
    entry it looks at is negative, and returns them unchanged: absent
    entries pass, and so do a price of 0 and counts of 0, although the
    messages ask for more than 0 and at least 1. *)
Theorem listing_validate_accepts_iff data :
  (validate data = inr data
   ↔ decimal_not_negative (price_per_night data)
     ∧ not_negative (number_of_bedrooms data)
     ∧ not_negative (number_of_bathrooms data)
     ∧ not_negative (max_guests data))
  ∧ (∀ data', validate data = inr data' → data' = data).
Proof.
  rewrite <- decimal_rejected_false, <- !int_rejected_false.
  unfold validate.
  destruct (decimal_rejected (price_per_night data));
    [split; [split; [done|by intros [? _]]|done]|].
  destruct (int_rejected (number_of_bedrooms data));
    [split; [split; [done|by intros (_ & ? & _)]|done]|].
  destruct (int_rejected (number_of_bathrooms data));
    [split; [split; [done|by intros (_ & _ & ? & _)]|done]|].
  destruct (int_rejected (max_guests data));
    [split; [split; [done|by intros (_ & _ & _ & ?)]|done]|].
  split; [done|]. by intros ? [= <-].
Qed.

(** Listing data with a price of 0.00, no bedrooms and no guests allowed
    are accepted. *)
Lemma listing_validate_accepts_iff_witness :
  validate Sample.free_listing = inr Sample.free_listing.
Proof.
  apply (listing_validate_accepts_iff Sample.free_listing). split_and!.
  - intros d [= <-]. by right.
  - by intros n [= <-].
  - by intros n [=].
  - by intros n [= <-].
Defined.

(** X10: the error of [ListingSerializer.validate] is that of the first
    negative entry in the order price, bedrooms, bathrooms, guests. *)
Theorem listing_validate_first_error data :
  (∀ d, price_per_night data = Some d →
        Decimal.sign d = true → Decimal.coefficient d ≠ 0%N →
        validate data = inl PriceNotPositive)
  ∧ (∀ n, decimal_not_negative (price_per_night data) →
          number_of_bedrooms data = Some n → n < 0 →
          validate data = inl BedroomsNotPositive)
  ∧ (∀ n, decimal_not_negative (price_per_night data) →
          not_negative (number_of_bedrooms data) →
          number_of_bathrooms data = Some n → n < 0 →
          validate data = inl BathroomsNotPositive)
  ∧ (∀ n, decimal_not_negative (price_per_night data) →
          not_negative (number_of_bedrooms data) →
          not_negative (number_of_bathrooms data) →
          max_guests data = Some n → n < 0 →
          validate data = inl MaxGuestsNotPositive).
Proof.
  assert (∀ x n, x = Some n → n < 0 → int_rejected x = true) as Hneg.
  { intros x n -> Hn. unfold int_rejected. simpl.
    destruct (Z.eqb_spec n 0); [lia|]. simpl.
    destruct (Z.leb_spec n 0); [done|lia]. }
  unfold validate. split_and!.
  - intros d -> Hs Hc. unfold decimal_rejected, Decimal.le_zero,
      Decimal.is_zero. rewrite Hs.
    by destruct (N.eqb_spec (Decimal.coefficient d) 0).
  - intros n Hp Hb Hn. apply decimal_rejected_false in Hp.
    by rewrite Hp, (Hneg _ n Hb Hn).
  - intros n Hp Hb Hba Hn. apply decimal_rejected_false in Hp.
    apply int_rejected_false in Hb.
    by rewrite Hp, Hb, (Hneg _ n Hba Hn).
  - intros n Hp Hb Hba Hm Hn. apply decimal_rejected_false in Hp.
    apply int_rejected_false in Hb, Hba.
    by rewrite Hp, Hb, Hba, (Hneg _ n Hm Hn).
Qed.

(** A price of -5.00 with -1 bathrooms is refused for the price; a price of
    5.00 with -1 bathrooms and -4 guests is refused for the bathrooms. *)
Lemma listing_validate_first_error_witness :
  validate Sample.negative_listing = inl PriceNotPositive
  ∧ validate Sample.negative_bathrooms = inl BathroomsNotPositive.
Proof.
  split.
  - destruct (listing_validate_first_error Sample.negative_listing)
      as (Hprice & _).
    by apply (Hprice (Decimal.mk true 500 (-2))).
  - destruct (listing_validate_first_error Sample.negative_bathrooms)
      as (_ & _ & Hbath & _).
    apply (Hbath (-1)); try done.
    + intros d [= <-]. by left.
    + intros n [= <-]. lia.
Defined.

End listing_validation.

(** ** Stored reviews *)
Section review_store.

Import ReviewSerializer.

Implicit Types (db : DB) (data : Data) (context : option Request).

(** What a successful insert of a review has checked and stored. *)
Lemma objects_create_Ok_inv db new_id vd db' r :
  objects_create db new_id vd = Ok (db', r) →
  (∀ k r', reviews db !! k = Some r' → ¬ Review.unique_together r' r)
  ∧ reviews db !! new_id = None
  ∧ db' = mkDB (listings db) (bookings db) (<[new_id := r]> (reviews db))
  ∧ ∃ u lid stars,
      reviewer vd = Some (User u)
      ∧ listing_id vd = Some lid
      ∧ rating vd = Some stars
      ∧ r = Review.mk lid u (booking_id vd) stars (default "" (comment vd))
      ∧ review_constraints db r = true.
Proof.
  unfold objects_create.
  destruct (reviewer vd) as [[|u]|]; try done. simpl.
  destruct (listing_id vd) as [lid|]; [|done]. simpl.
  destruct (rating vd) as [stars|]; [|done]. simpl.
  set (row := Review.mk lid u (booking_id vd) stars (default "" (comment vd))).
  destruct (review_constraints db row) eqn:Hcons; [|done]. simpl.
  destruct (qs_exists _) eqn:Hq; [done|].
  destruct (reviews db !! new_id) eqn:Hfresh; [done|].
  intros [= <- <-]. split_and!; try done.
  - rewrite qs_exists_false in Hq. intros k r' Hk Hu.
    specialize (Hq k). apply map_lookup_filter_None in Hq as [Hq|Hq].
    + by rewrite Hk in Hq.
    + by apply (Hq r').
  - by exists u, lid, stars.
Qed.

Lemma unique_together_sym r1 r2 :
  Review.unique_together r1 r2 → Review.unique_together r2 r1.
Proof. intros [Hl Hr]. by split. Qed.

Lemma unique_reviews_insert db k r :
  unique_reviews db →
  (∀ k' r', reviews db !! k' = Some r' → ¬ Review.unique_together r' r) →
  unique_reviews
    (mkDB (listings db) (bookings db) (<[k := r]> (reviews db))).
Proof.
  intros Hinv Hnew i j r1 r2 Hi Hj Hij Hu. simpl in Hi, Hj.
  destruct (decide (i = k)) as [->|Hik], (decide (j = k)) as [->|Hjk].
  - done.
  - rewrite lookup_insert_eq in Hi. injection Hi as <-.
    rewrite lookup_insert_ne in Hj by done.
    by apply (Hnew j r2), unique_together_sym.
  - rewrite lookup_insert_eq in Hj. injection Hj as <-.
    rewrite lookup_insert_ne in Hi by done.
    by apply (Hnew i r1).
  - rewrite lookup_insert_ne in Hi, Hj by done.
    by apply (Hinv i j r1 r2).
Qed.

(** X11: [ReviewSerializer.create] keeps the stored reviews unique per
    listing and reviewer: when it succeeds, the new review is the only
    change to the store, it sits under a key that was free, and no stored
    review had its listing and reviewer. *)
Theorem review_create_keeps_unique db context new_id vd db' r :
  unique_reviews db →
  create db context new_id vd = Ok (db', r) →
  unique_reviews db'
  ∧ reviews db !! new_id = None
  ∧ reviews db' = <[new_id := r]> (reviews db)
  ∧ listings db' = listings db
  ∧ bookings db' = bookings db.
Proof.
  intros Hinv Hc. unfold create in Hc.
  apply objects_create_Ok_inv in Hc as (Hnew & Hfresh & -> & _).
  split_and!; try done. by apply unique_reviews_insert.
Qed.

Lemma sample_second_reviewer :
  create Sample.reviewed Sample.bob 21%N
    (set_listing Sample.villa (Sample.review_request 1 None 4))
  = Ok (mkDB (listings Sample.reviewed) (bookings Sample.reviewed)
          (<[ 21%N := Review.mk 1 8 None 4 "Lovely" ]>
             (reviews Sample.reviewed)),
        Review.mk 1 8 None 4 "Lovely").
Proof. vm_compute. reflexivity. Qed.

Lemma review_create_keeps_unique_witness :
  ∃ db' r,
    create Sample.reviewed Sample.bob 21%N
      (set_listing Sample.villa (Sample.review_request 1 None 4))
    = Ok (db', r)
    ∧ unique_reviews db'.
Proof.
  eexists _, _. pose proof sample_second_reviewer as Hc.
  split; [exact Hc|].
  eapply (review_create_keeps_unique Sample.reviewed); [|exact Hc].
  intros i j r1 r2 Hi Hj Hij.
  assert (i = 20%N) as ->.
  { destruct (decide (i = 20%N)); [done|].
    unfold Sample.reviewed in Hi. simpl in Hi.
    by rewrite lookup_insert_ne, lookup_empty in Hi. }
  assert (j = 20%N) as ->; [|done].
  destruct (decide (j = 20%N)); [done|].
  unfold Sample.reviewed in Hj. simpl in Hj.
  by rewrite lookup_insert_ne, lookup_empty in Hj.
Defined.

(** X12: after [ReviewSerializer.create] has succeeded, the number of
    reviews reported for the listing reviewed is one more than before, and
    the number reported for any other listing is unchanged. *)
Theorem total_reviews_after_create db context new_id vd db' r :
  create db context new_id vd = Ok (db', r) →
  ListingSerializer.get_total_reviews db' (Review.listing r)
  = S (ListingSerializer.get_total_reviews db (Review.listing r))
  ∧ (∀ lid, lid ≠ Review.listing r →
       ListingSerializer.get_total_reviews db' lid
       = ListingSerializer.get_total_reviews db lid).
Proof.
  intros Hc. unfold create in Hc.
  apply objects_create_Ok_inv in Hc as (_ & Hfresh & -> & _).
  unfold ListingSerializer.get_total_reviews. simpl. split.
  - rewrite map_filter_insert_True by done.
    apply map_size_insert_None.
    apply map_lookup_filter_None. by left.
  - intros lid Hne.
    rewrite map_filter_insert_False by (simpl; congruence).
    by rewrite delete_id.
Qed.

Lemma total_reviews_after_create_witness :
  ListingSerializer.get_total_reviews Sample.reviewed 1 = 1%nat
  ∧ ListingSerializer.get_total_reviews
      (mkDB (listings Sample.reviewed) (bookings Sample.reviewed)
         (<[ 21%N := Review.mk 1 8 None 4 "Lovely" ]>
            (reviews Sample.reviewed))) 1 = 2%nat.
Proof.
  split; [by vm_compute|].
  destruct (total_reviews_after_create _ _ _ _ _ _ sample_second_reviewer)
    as [Hone _].
  etrans; [exact Hone | by vm_compute].
Defined.

End review_store.

(** ** Review requests *)
Section review_requests.

Import ReviewSerializer.

Implicit Types (db : DB) (data : Data) (context : option Request).

#[local] Set Warnings "-clear-no-such-hyp".

Lemma validate_rating_cases data :
  (rating_passes data ∧ validate_rating data = Ok tt)
  ∨ (¬ rating_passes data ∧ validate_rating data = raise InvalidRating).
Proof.
  unfold validate_rating, rating_passes, truthy_int.
  destruct (rating data) as [r|]; [|left; split; [by intros ?|done]].
  simpl. destruct (Z.eqb_spec r 0) as [->|Hnz]; simpl.
  - left. split; [|done]. intros ? [= <-]. by left.
  - destruct (Z.ltb_spec r 1); simpl.
    + right. split; [|done]. intros Hr. destruct (Hr r eq_refl); lia.
    + destruct (Z.gtb_spec r 5).
      * right. split; [|done]. intros Hr. destruct (Hr r eq_refl); lia.
      * left. split; [|done]. intros ? [= <-]. right. lia.
Qed.

(** X13: review validation answers "Invalid listing ID." exactly when the
    rating check is passed and the request names a listing that is not
    stored, and "Invalid booking ID." exactly when the rating check is
    passed, the listing named (if any) is stored, and the request names a
    booking that is not stored; neither answer depends on the context. *)
Theorem review_missing_references db context data :
  (validate db context data = raise ListingNotFound
   ↔ rating_passes data
     ∧ ∃ lid, listing_id data = Some lid ∧ listings db !! lid = None)
  ∧ (validate db context data = raise BookingNotFound
     ↔ rating_passes data
       ∧ listing_found db data
       ∧ ∃ bid, booking_id data = Some bid ∧ bookings db !! bid = None).
Proof.
  assert (∀ b data', validate_owner context b ≫= (λ _ : (),
            Ok (set_booking b data')) ≠ raise ListingNotFound
          ∧ validate_owner context b ≫= (λ _ : (),
              Ok (set_booking b data')) ≠ raise BookingNotFound) as Hown.
  { intros b data'. unfold validate_owner.
    destruct context as [[[u|]]|]; try done. simpl.
    repeat case_bool_decide; done. }
  unfold validate, listing_found, is_Some.
  destruct (validate_rating_cases data) as [[Hr ->]|[Hr ->]]; simpl;
    [|naive_solver].
  unfold validate_listing.
  destruct (listing_id data) as [lid|] eqn:Hlid; simpl;
    [destruct (listings db !! lid) as [l|] eqn:Hl; simpl|];
    try (destruct (booking_id data) as [bid|] eqn:Hbid;
         [destruct (bookings db !! bid) as [b|] eqn:Hb|]);
    try (destruct (Hown b (set_listing l data)));
    try (destruct (Hown b data));
    naive_solver.
Qed.

(** X14: a review request from a signed-in user with a rating from 1 to 5
    for a stored listing, resting on a completed booking of that user, and
    not preceded by a review of that user for the listing, passes
    [validate], and [create] then stores it under the free key with that
    user as reviewer.  Nothing ties the booking to the listing reviewed:
    the booking may be one of another listing. *)
Theorem review_accepted_then_stored
    db context data u lid l stars bid b new_id :
  context = Some {| req_user := Some (User u) |} →
  listing_id data = Some lid → listings db !! lid = Some l →
  rating data = Some stars → 1 ≤ stars ≤ 5 →
  booking_id data = Some bid → bookings db !! bid = Some b →
  Booking.guest b = u → Booking.status b = completed →
  (∀ k r, reviews db !! k = Some r →
          ¬ (Review.listing r = lid ∧ Review.reviewer r = u)) →
  reviews db !! new_id = None →
  ∃ vd db' r,
    validate db context data = Ok vd
    ∧ create db context new_id vd = Ok (db', r)
    ∧ r = Review.mk lid u (Some bid) stars (default "" (comment data))
    ∧ reviews db' !! new_id = Some r.
Proof.
  intros -> Hlid Hl Hstars Hrange Hbid Hb Hg Hst Hnone Hfresh.
  unfold validate, validate_rating, validate_listing, validate_owner.
  rewrite Hstars, Hlid, Hl. simpl.
  destruct (Z.eqb_spec stars 0); [lia|]. simpl.
  destruct (Z.ltb_spec stars 1); [lia|].
  destruct (Z.gtb_spec stars 5); [lia|]. simpl.
  rewrite Hbid, Hb. simpl.
  rewrite bool_decide_eq_false_2 by (intros Hne; apply Hne; by rewrite Hg).
  rewrite bool_decide_eq_false_2 by (by intros ?). simpl.
  eexists _, _, _. split; [reflexivity|].
  unfold create, objects_create. simpl. rewrite Hlid, Hstars, Hbid. simpl.
  rewrite review_constraints_stored;
    [|by simpl; rewrite Hl; eexists
     |by simpl; intros ? [= <-]; rewrite Hb; eexists].
  simpl. set (q := filter _ (reviews db)).
  assert (qs_exists q = false) as ->.
  { apply qs_exists_false. intros k. subst q.
    apply map_lookup_filter_None. right. intros r Hk [Hrl Hrr].
    simpl in Hrl, Hrr. by apply (Hnone k r). }
  rewrite Hfresh. split; [reflexivity|]. split; [reflexivity|].
  simpl. by rewrite lookup_insert_eq.
Qed.

(** User 8 reviews listing 1 on the strength of a completed stay at
    listing 2. *)
Lemma review_accepted_then_stored_witness :
  Booking.listing (Sample.stay 2 8 (Sample.june 1) (Sample.june 3) completed)
  ≠ 1%N
  ∧ ∃ vd db' r,
      validate Sample.two_listings Sample.bob
        (Sample.review_request 1 (Some 12%N) 5) = Ok vd
      ∧ create Sample.two_listings Sample.bob 21%N vd = Ok (db', r)
      ∧ Review.listing r = 1%N ∧ Review.booking r = Some 12%N.
Proof.
  split; [done|].
  destruct (review_accepted_then_stored Sample.two_listings Sample.bob
              (Sample.review_request 1 (Some 12%N) 5) 8%N 1%N Sample.villa
              5 12%N
              (Sample.stay 2 8 (Sample.june 1) (Sample.june 3) completed)
              21%N)
    as (vd & db' & r & Hv & Hc & Hr & _); try reflexivity; try lia.
  - intros k r Hk [Hrl Hrr].
    destruct (decide (k = 20%N)) as [->|Hne].
    + vm_compute in Hk. injection Hk as <-. done.
    + unfold Sample.two_listings, Sample.reviewed in Hk. simpl in Hk.
      by rewrite lookup_insert_ne, lookup_empty in Hk.
  - exists vd, db', r. by rewrite Hr in *.
Defined.

End review_requests.

(** ** The seed command *)
Section seed_command.

Import Seed.

Lemma randint_Some lo hi raw v :
  randint lo hi raw = Some v → lo ≤ v ≤ hi.
Proof.
  unfold randint. destruct (Z.ltb_spec hi lo); [done|]. intros [= <-].
  pose proof (Z.mod_pos_bound raw (hi - lo + 1)). lia.
Qed.

Lemma randint_is_Some lo hi raw : lo ≤ hi → is_Some (randint lo hi raw).
Proof.
  intros Hle. unfold randint. destruct (Z.ltb_spec hi lo); [lia|].
  by eexists.
Qed.

Lemma add_days_Some d n o :
  PyDate.add_days d n = Some o → o = d + n ∧ PyDate.valid o.
Proof.
  unfold PyDate.add_days, PyDate.valid, PyDate.MINORDINAL. simpl.
  destruct (Z.ltb_spec 0 (d + n)); [|done].
  destruct (Z.leb_spec (d + n) PyDate.MAXORDINAL); [|done].
  intros [= <-]. lia.
Qed.

Lemma add_days_is_Some d n :
  PyDate.valid (d + n) → PyDate.add_days d n = Some (d + n).
Proof.
  unfold PyDate.add_days, PyDate.valid, PyDate.MINORDINAL. simpl.
  intros [Hlo Hhi].
  destruct (Z.ltb_spec 0 (d + n)); [|lia].
  by destruct (Z.leb_spec (d + n) PyDate.MAXORDINAL); [|lia].
Qed.

Lemma choice_Some {A} (l : list A) raw x : choice l raw = Some x → x ∈ l.
Proof. unfold choice. apply list_elem_of_lookup_2. Qed.

(** X15: a range returned by [get_random_date_range] starts between the
    two offsets from today, lasts from 1 to 14 nights and consists of two
    dates; when the least offset is not negative the booking serializer's
    date checks let it through.  A range is returned whenever the offsets
    are in order and every date they can lead to exists. *)
Theorem random_date_range_valid today lo hi raw_offset raw_duration :
  (∀ s e,
     get_random_date_range today lo hi raw_offset raw_duration
     = Some (s, e) →
     today + lo ≤ s ≤ today + hi
     ∧ 1 ≤ PyDate.days_between e s ≤ 14
     ∧ PyDate.valid s ∧ PyDate.valid e
     ∧ (0 ≤ lo → ∀ data,
          BookingSerializer.check_in_date data = Some s →
          BookingSerializer.check_out_date data = Some e →
          BookingSerializer.validate_dates today data = Ok tt))
  ∧ (lo ≤ hi → 0 < today + lo → today + hi + 14 ≤ PyDate.MAXORDINAL →
     is_Some (get_random_date_range today lo hi raw_offset raw_duration)).
Proof.
  unfold get_random_date_range. split.
  - intros s e Hr.
    destruct (randint lo hi raw_offset) as [off|] eqn:Hoff; [|done].
    destruct (randint 1 14 raw_duration) as [dur|] eqn:Hdur; [|done].
    simpl in Hr.
    destruct (PyDate.add_days today off) as [s'|] eqn:Hs; [|done].
    simpl in Hr.
    destruct (PyDate.add_days s' dur) as [e'|] eqn:He; [|done].
    injection Hr as -> ->.
    apply randint_Some in Hoff, Hdur.
    apply add_days_Some in Hs as [-> Hvs], He as [-> Hve].
    unfold PyDate.days_between. split_and!; try done; try lia.
    intros Hlo data Hci Hco. apply validate_dates_Ok.
    intros ci co. rewrite Hci, Hco. intros [= <-] [= <-]. lia.
  - intros Hle Hlo Hhi.
    destruct (randint_is_Some lo hi raw_offset Hle) as [off Hoff].
    destruct (randint_is_Some 1 14 raw_duration) as [dur Hdur]; [lia|].
    rewrite Hoff, Hdur. simpl.
    apply randint_Some in Hoff, Hdur.
    rewrite add_days_is_Some
      by (unfold PyDate.valid, PyDate.MINORDINAL; lia).
    simpl.
    rewrite add_days_is_Some
      by (unfold PyDate.valid, PyDate.MINORDINAL; lia).
    by eexists.
Qed.

(** With the default offsets 1 and 365 on 2024-01-01 and raw draws 40 and
    17: the range is 2024-02-11 to 2024-02-15. *)
Lemma random_date_range_valid_witness :
  get_random_date_range Sample.today 1 365 40 17
  = Some (PyDate.ymd2ord 2024 2 11, PyDate.ymd2ord 2024 2 15)
  ∧ BookingSerializer.validate_dates Sample.today
      (Sample.new_dates (PyDate.ymd2ord 2024 2 11)
         (PyDate.ymd2ord 2024 2 15)) = Ok tt.
Proof.
  assert (get_random_date_range Sample.today 1 365 40 17
          = Some (PyDate.ymd2ord 2024 2 11, PyDate.ymd2ord 2024 2 15))
    as Hr; [by vm_compute|].
  split; [exact Hr|].
  destruct (random_date_range_valid Sample.today 1 365 40 17) as [Hv _].
  destruct (Hv _ _ Hr) as (_ & _ & _ & _ & Hpass).
  apply Hpass; [lia | reflexivity | reflexivity].
Defined.

(** One round of the loop of [create_bookings], for lists read from a
    store with the listings of [db0]. *)
Lemma create_booking_Some db0 db today available guests d db' :
  listings db = listings db0 →
  (∀ kl, kl ∈ available →
         listings db0 !! kl.1 = Some kl.2
         ∧ Listing.is_available kl.2 = true) →
  create_booking db today available guests d = Some db' →
  ∃ b,
    bookings db !! booking_uuid d = None
    ∧ db' = mkDB (listings db) (<[booking_uuid d := b]> (bookings db))
              (reviews db)
    ∧ seeded_booking db0 today b.
Proof.
  intros Hls Hav. unfold create_booking.
  destruct (choice available (listing_draw d)) as [[lid l]|] eqn:Hl;
    [|done]. cbn.
  destruct (choice guests (guest_draw d)) as [g|]; [|done]. cbn.
  destruct (randint (-90) 365 (offset_draw d)) as [off|] eqn:Hoff;
    [|done]. cbn.
  destruct (PyDate.add_days today off) as [s|] eqn:Hs; [|done]. cbn.
  destruct (randint 1 14 (duration_draw d)) as [dur|] eqn:Hdur;
    [|done]. cbn.
  destruct (PyDate.add_days s dur) as [e|] eqn:He; [|done]. cbn.
  destruct (randint 1 (Listing.max_guests l `min` 6) (guests_draw d))
    as [n|] eqn:Hn; [|done]. cbn.
  destruct (choice special_requests_choices (requests_draw d)) as [sr|];
    [|done]. cbn.
  destruct (bookings db !! booking_uuid d) eqn:Hfresh; [done|].
  intros [= <-]. eexists. split; [done|]. split; [done|].
  apply choice_Some, Hav in Hl as [Hl Havl]. simpl in Hl, Havl.
  apply randint_Some in Hoff, Hdur, Hn.
  apply add_days_Some in Hs as [-> _], He as [-> _].
  exists l. unfold Booking.clean, Booking.duration_nights,
    PyDate.days_between. simpl.
  split_and!; try done; try lia.
  - destruct (Z.leb_spec (today + off + dur) (today + off)); [lia|].
    destruct (Z.eqb_spec n 0); [lia|]. simpl.
    destruct (Z.gtb_spec n (Listing.max_guests l)); [lia|done].
  - by replace (today + off + dur - (today + off)) with dur by lia.
Qed.

(** What the loop of [create_bookings] keeps, from any round on. *)
Lemma create_bookings_loop_inv db0 today available guests draws :
  (∀ kl, kl ∈ available →
         listings db0 !! kl.1 = Some kl.2
         ∧ Listing.is_available kl.2 = true) →
  ∀ db c db' c',
    listings db = listings db0 →
    create_bookings_loop db today available guests draws c = (db', c') →
    listings db' = listings db0
    ∧ reviews db' = reviews db
    ∧ (∀ k b, bookings db !! k = Some b → bookings db' !! k = Some b)
    ∧ (∀ k b, bookings db' !! k = Some b →
              bookings db !! k = Some b
              ∨ (bookings db !! k = None ∧ seeded_booking db0 today b))
    ∧ (size (bookings db') + c = size (bookings db) + c')%nat
    ∧ (c ≤ c' ≤ c + length draws)%nat.
Proof.
  intros Hav. induction draws as [|d draws IH]; intros db c db' c' Hls Hloop.
  - injection Hloop as <- <-. split_and!; auto; simpl; lia.
  - simpl in Hloop.
    destruct (create_booking db today available guests d) as [db1|] eqn:Hd.
    + destruct (create_booking_Some db0 db today available guests d db1
                  Hls Hav Hd) as (b1 & Hfresh & -> & Hseed).
      apply IH in Hloop as (Hl' & Hr' & Hold & Hnew & Hsize & Hc);
        [|done]. simpl in *.
      rewrite map_size_insert_None in Hsize by done.
      split_and!; try done; try lia.
      * intros k b Hk. apply Hold.
        rewrite lookup_insert_ne; [done|]. intros <-. congruence.
      * intros k b Hk. destruct (Hnew k b Hk) as [Hin|[Hnone Hs]].
        -- destruct (decide (k = booking_uuid d)) as [->|Hne].
           ++ rewrite lookup_insert_eq in Hin. injection Hin as <-.
              by right.
           ++ rewrite lookup_insert_ne in Hin by done. by left.
        -- right. split; [|done].
           destruct (decide (k = booking_uuid d)) as [->|Hne].
           ++ by rewrite lookup_insert_eq in Hnone.
           ++ by rewrite lookup_insert_ne in Hnone.
    + apply IH in Hloop as (Hl' & Hr' & Hold & Hnew & Hsize & Hc);
        [|done].
      split_and!; try done; simpl; lia.
Qed.

(** X16: [create_bookings] only adds bookings: the listings, the reviews
    and the bookings already stored are untouched, the number reported is
    the number of rows added and is at most the number asked for.  Every
    row added is for an available listing, starts between 90 days before
    and 365 days after today, lasts from 1 to 14 nights, has from 1 to 6
    guests and no more than the listing allows, carries the nightly rate
    times its nights as total price, and passes [Booking.clean]. *)
Theorem seed_bookings_invariant db today guests draws db' n :
  create_bookings db today guests draws = (db', Some n) →
  listings db' = listings db
  ∧ reviews db' = reviews db
  ∧ (∀ k b, bookings db !! k = Some b → bookings db' !! k = Some b)
  ∧ (∀ k b, bookings db' !! k = Some b →
            bookings db !! k = Some b
            ∨ (bookings db !! k = None ∧ seeded_booking db today b))
  ∧ size (bookings db') = (size (bookings db) + n)%nat
  ∧ (n ≤ length draws)%nat.
Proof.
  unfold create_bookings.
  set (available := map_to_list _).
  assert (∀ kl, kl ∈ available →
            listings db !! kl.1 = Some kl.2
            ∧ Listing.is_available kl.2 = true) as Hav.
  { intros [lid l] Hin. subst available.
    apply elem_of_map_to_list in Hin.
    by apply map_lookup_filter_Some in Hin. }
  destruct (create_bookings_loop db today available guests draws 0)
    as [db1 c1] eqn:Hloop.
  intros Hr.
  assert (db1 = db' ∧ c1 = n) as [-> ->].
  { destruct available, guests; simpl in Hr; by simplify_eq. }
  destruct (create_bookings_loop_inv db today available guests draws Hav
              db 0%nat db' n eq_refl Hloop)
    as (Hl & Hr' & Hold & Hnew & Hsize & Hc).
  split_and!; try done; lia.
Qed.

(** Two rounds on the sample store, for the guests 7 and 8: both rows are
    added. *)
Lemma seed_bookings_invariant_witness :
  ∃ db',
    create_bookings Sample.store Sample.today [7%N; 8%N]
      Sample.booking_draws = (db', Some 2%nat)
    ∧ size (bookings db') = 2%nat.
Proof.
  destruct (create_bookings Sample.store Sample.today [7%N; 8%N]
              Sample.booking_draws) as [db' n] eqn:Hrun.
  assert (n = Some 2%nat) as ->.
  { apply (f_equal snd) in Hrun. vm_compute in Hrun. done. }
  exists db'. split; [done|].
  by destruct (seed_bookings_invariant _ _ _ _ _ _ Hrun)
    as (_ & _ & _ & _ & -> & _).
Defined.

(** The rest of a round once listing and reviewer are known: either
    nothing is stored and nothing counted, and a transaction marked for
    rollback stays so, or the transaction is in good standing and one
    review is stored under a free key and counted. *)
Lemma attempt_review_step st lid reviewer bid d :
  let st' := attempt_review st lid reviewer bid d in
  (loop_db st' = loop_db st ∧ created_count st' = created_count st
   ∧ (needs_rollback st = true → needs_rollback st' = true))
  ∨ ∃ r,
      reviews (loop_db st) !! review_uuid d = None
      ∧ (∀ k r', reviews (loop_db st) !! k = Some r' →
                 ¬ Review.unique_together r' r)
      ∧ loop_db st'
        = mkDB (listings (loop_db st)) (bookings (loop_db st))
            (<[review_uuid d := r]> (reviews (loop_db st)))
      ∧ created_count st' = S (created_count st)
      ∧ 1 ≤ Review.rating r ≤ 5
      ∧ Review.listing r = lid
      ∧ Review.reviewer r = reviewer
      ∧ Review.booking r = bid
      ∧ needs_rollback st = false
      ∧ needs_rollback st' = false.
Proof.
  unfold attempt_review. case_bool_decide; [by left|].
  destruct (choice [1; 2; 3; 4; 5] (rating_draw d)) as [stars|] eqn:Hstars;
    [|by left].
  destruct (choice review_comments (comment_draw d)) as [text|];
    [|by left].
  destruct (needs_rollback st) eqn:Hrb; [by left|].
  unfold insert_review.
  destruct (ReviewSerializer.objects_create _ _ _) as [[db1 r]|e] eqn:Hc;
    [|by left].
  right. exists r.
  apply objects_create_Ok_inv in Hc
    as (Hnew & Hfresh & -> & u & lid' & stars' & [= <-] & [= <-] & [= <-]
        & -> & _).
  apply choice_Some in Hstars.
  rewrite !elem_of_cons, elem_of_nil in Hstars.
  simpl. split_and!; try done; lia.
Qed.

(** The new state after one round of the loop of [create_reviews]: either
    nothing is stored and nothing counted, and a transaction marked for
    rollback stays so, or the transaction is in good standing and one
    review is stored under a free key and counted. *)
Lemma create_review_step db0 finished all_listings guests st d :
  (∀ kb, kb ∈ finished →
         bookings db0 !! kb.1 = Some kb.2
         ∧ Booking.status kb.2 = completed) →
  bookings (loop_db st) = bookings db0 →
  let st' := create_review finished all_listings guests st d in
  (loop_db st' = loop_db st ∧ created_count st' = created_count st
   ∧ (needs_rollback st = true → needs_rollback st' = true))
  ∨ ∃ r,
      reviews (loop_db st) !! review_uuid d = None
      ∧ (∀ k r', reviews (loop_db st) !! k = Some r' →
                 ¬ Review.unique_together r' r)
      ∧ loop_db st'
        = mkDB (listings (loop_db st)) (bookings (loop_db st))
            (<[review_uuid d := r]> (reviews (loop_db st)))
      ∧ created_count st' = S (created_count st)
      ∧ 1 ≤ Review.rating r ≤ 5
      ∧ (finished ≠ [] → eligible_review db0 r)
      ∧ (finished = [] →
         Review.booking r = None
         ∧ Review.reviewer r ∈ guests
         ∧ ∃ l, (Review.listing r, l) ∈ all_listings)
      ∧ needs_rollback st = false.
Proof.
  intros Hcompleted Hbk. unfold create_review.
  destruct finished as [|kb0 rest].
  - destruct (choice all_listings (pick_draw d)) as [[lid l]|] eqn:Hl;
      [|by left].
    destruct (choice guests (reviewer_draw d)) as [g|] eqn:Hg; [|by left].
    apply choice_Some in Hl, Hg.
    destruct (attempt_review_step st lid g None d)
      as [Hsame|(r & Hfresh & Hnew & Hdb & Hc & Hrate & Hrl & Hrr & Hrb
                 & Hgood & _)];
      [by left|].
    right. exists r. split_and!; try done; try lia.
    intros _. rewrite Hrl, Hrr, Hrb. split_and!; try done. by exists l.
  - destruct (choice (kb0 :: rest) (pick_draw d)) as [[k b]|] eqn:Hb;
      [|by left].
    apply choice_Some, Hcompleted in Hb as [Hb Hst]. simpl in Hb, Hst.
    assert (∀ st0,
              loop_db st0 = loop_db st →
              created_count st0 = created_count st →
              needs_rollback st0 = needs_rollback st →
              let st' :=
                attempt_review st0 (Booking.listing b) (Booking.guest b)
                  (Some k) d in
              (loop_db st' = loop_db st
               ∧ created_count st' = created_count st
               ∧ (needs_rollback st = true → needs_rollback st' = true))
              ∨ ∃ r,
                  reviews (loop_db st) !! review_uuid d = None
                  ∧ (∀ k r', reviews (loop_db st) !! k = Some r' →
                             ¬ Review.unique_together r' r)
                  ∧ loop_db st'
                    = mkDB (listings (loop_db st)) (bookings (loop_db st))
                        (<[review_uuid d := r]> (reviews (loop_db st)))
                  ∧ created_count st' = S (created_count st)
                  ∧ 1 ≤ Review.rating r ≤ 5
                  ∧ (kb0 :: rest ≠ [] → eligible_review db0 r)
                  ∧ (kb0 :: rest = [] →
                     Review.booking r = None
                     ∧ Review.reviewer r ∈ guests
                     ∧ ∃ l, (Review.listing r, l) ∈ all_listings)
                  ∧ needs_rollback st = false) as Hattempt.
    { intros st0 Hdb0 Hc0 Hrb0. simpl.
      destruct (attempt_review_step st0 (Booking.listing b)
                  (Booking.guest b) (Some k) d)
        as [(Hdb & Hc & Hrb)
           |(r & Hfresh & Hnew & Hdb & Hc & Hrate & Hrl & Hrr & Hrb
             & Hgood & _)].
      - left. rewrite Hdb, Hc, Hdb0, Hc0. split_and!; try done.
        intros Hp. apply Hrb. by rewrite Hrb0.
      - right. exists r. rewrite Hdb0, Hc0, Hrb0 in *.
        split_and!; try done; try lia.
        intros _. split; [done|]. by exists k, b. }
    simpl. case_bool_decide; [by apply Hattempt|].
    destruct (needs_rollback st) eqn:Hrb; [by left|].
    destruct (listings (loop_db st) !! Booking.listing b); [|by left].
    by apply Hattempt.
Qed.

(** What the loop of [create_reviews] keeps, from any round on. *)
Lemma create_reviews_loop_inv db0 finished all_listings guests draws :
  (∀ kb, kb ∈ finished →
         bookings db0 !! kb.1 = Some kb.2
         ∧ Booking.status kb.2 = completed) →
  ∀ st,
    bookings (loop_db st) = bookings db0 →
    let st' := foldl (create_review finished all_listings guests) st draws in
    listings (loop_db st') = listings (loop_db st)
    ∧ bookings (loop_db st') = bookings db0
    ∧ (∀ k r, reviews (loop_db st) !! k = Some r →
              reviews (loop_db st') !! k = Some r)
    ∧ (∀ k r, reviews (loop_db st') !! k = Some r →
              reviews (loop_db st) !! k = Some r
              ∨ (reviews (loop_db st) !! k = None
                 ∧ 1 ≤ Review.rating r ≤ 5
                 ∧ (finished ≠ [] → eligible_review db0 r)
                 ∧ (finished = [] →
                    Review.booking r = None
                    ∧ Review.reviewer r ∈ guests
                    ∧ ∃ l, (Review.listing r, l) ∈ all_listings)))
    ∧ (size (reviews (loop_db st')) + created_count st
       = size (reviews (loop_db st)) + created_count st')%nat
    ∧ (created_count st ≤ created_count st'
       ≤ created_count st + length draws)%nat
    ∧ (unique_reviews (loop_db st) → unique_reviews (loop_db st'))
    ∧ (needs_rollback st = true →
       loop_db st' = loop_db st ∧ created_count st' = created_count st
       ∧ needs_rollback st' = true).
Proof.
  intros Hfin.
  induction draws as [|d draws IH]; intros st Hbk; simpl.
  - split_and!; auto; lia.
  - pose proof (create_review_step db0 finished all_listings guests st d
                  Hfin Hbk) as Hstep.
    simpl in Hstep.
    set (st1 := create_review finished all_listings guests st d) in *.
    destruct Hstep
      as [(Hdb & Hc & Hrb)
         |(r & Hfresh & Hnew & Hdb & Hc & Hrate & Hel & Hno & Hgood)].
    + destruct (IH st1)
        as (Hl & Hb & Hold & Hnew & Hsize & Hcount & Hu & Hp);
        [by rewrite Hdb|].
      rewrite Hdb in Hl, Hold, Hnew, Hsize, Hu, Hp.
      rewrite Hc in Hsize, Hcount, Hp.
      split_and!; try done; try lia.
      intros Hmarked. by apply Hp, Hrb.
    + destruct (IH st1)
        as (Hl & Hb & Hold & Hnew' & Hsize & Hcount & Hu & _);
        [by rewrite Hdb|].
      rewrite Hdb in Hl, Hold, Hnew', Hsize, Hu.
      rewrite Hc in Hsize, Hcount. simpl in Hl, Hold, Hnew', Hsize, Hu.
      rewrite map_size_insert_None in Hsize by done.
      split_and!; try done; try lia.
      * intros k r' Hk. apply Hold.
        rewrite lookup_insert_ne; [done|]. intros <-. congruence.
      * intros k r' Hk. destruct (Hnew' k r' Hk) as [Hin|[Hnone HPr]].
        -- destruct (decide (k = review_uuid d)) as [->|Hne].
           ++ rewrite lookup_insert_eq in Hin. injection Hin as <-.
              by right.
           ++ rewrite lookup_insert_ne in Hin by done. by left.
        -- right. split; [|done].
           destruct (decide (k = review_uuid d)) as [->|Hne].
           ++ by rewrite lookup_insert_eq in Hnone.
           ++ by rewrite lookup_insert_ne in Hnone.
      * intros Hinv. apply Hu.
        by apply (unique_reviews_insert (loop_db st)).
      * congruence.
Qed.

(** The run of [create_reviews], when it is not given up, is the loop over
    the lists read from [db], whatever the number of rounds. *)
Lemma create_reviews_run db guests draws db' n marked :
  create_reviews db guests draws = (db', Some n, marked) →
  ∀ rounds,
    let finished :=
      map_to_list (filter (λ kb : N * Booking.t,
                             Booking.status kb.2 = completed)
                          (bookings db)) in
    let run :=
      foldl (create_review finished (map_to_list (listings db)) guests)
        (mkReviewLoop db ∅ 0 false ∅) rounds in
    create_reviews db guests rounds
    = (loop_db run, Some (created_count run), needs_rollback run).
Proof.
  unfold create_reviews. intros Hrun rounds. simpl.
  destruct (map_to_list (filter _ (bookings db))) as [|kb rest];
    [destruct (map_to_list (listings db)) as [|kl rest]; [done|];
     destruct guests; [done|]|];
    done.
Qed.

Lemma finished_bookings db kb :
  kb ∈ map_to_list (filter (λ kb : N * Booking.t,
                              Booking.status kb.2 = completed)
                           (bookings db)) →
  bookings db !! kb.1 = Some kb.2 ∧ Booking.status kb.2 = completed.
Proof.
  destruct kb as [k b]. intros Hin.
  apply elem_of_map_to_list in Hin.
  by apply map_lookup_filter_Some in Hin.
Qed.


(** X18: every review added by [create_reviews] has a rating from 1 to 5.
    When the store holds a completed booking, each added review rests on
    one: it names a completed booking whose listing and guest are the
    review's listing and reviewer.  When it holds none, each added review
    names no booking, a stored listing and one of the guests. *)
Theorem seeded_reviews_rest_on_bookings db guests draws db' n marked k r :
  create_reviews db guests draws = (db', Some n, marked) →
  reviews db' !! k = Some r → reviews db !! k = None →
  1 ≤ Review.rating r ≤ 5
  ∧ ((∃ k0 b0, bookings db !! k0 = Some b0
               ∧ Booking.status b0 = completed) →
     eligible_review db r)
  ∧ ((∀ k0 b0, bookings db !! k0 = Some b0 →
               Booking.status b0 ≠ completed) →
     Review.booking r = None
     ∧ Review.reviewer r ∈ guests
     ∧ is_Some (listings db !! Review.listing r)).
Proof.
  intros Hrun Hk Hnone.
  pose proof (create_reviews_run _ _ _ _ _ _ Hrun draws) as Hrounds.
  rewrite Hrounds in Hrun. simpl in Hrun. injection Hrun as <- _ _.
  set (m := filter (λ kb : N * Booking.t, Booking.status kb.2 = completed)
              (bookings db)) in *.
  destruct (create_reviews_loop_inv db (map_to_list m)
              (map_to_list (listings db)) guests
              draws (finished_bookings db) (mkReviewLoop db ∅ 0 false ∅)
              eq_refl)
    as (_ & _ & _ & Hnew & _).
  destruct (Hnew k r Hk) as [Hin|(_ & Hrate & Hel & Hno)];
    [simpl in Hin; congruence|].
  split; [done|]. split.
  - intros (k0 & b0 & Hb0 & Hst). apply Hel.
    intros Hempty. apply map_to_list_empty_iff in Hempty.
    assert (m !! k0 = Some b0) as Hm
      by (by apply map_lookup_filter_Some).
    by rewrite Hempty, lookup_empty in Hm.
  - intros Hall.
    destruct Hno as (Hbk & Hg & l & Hl).
    + apply map_to_list_empty_iff, map_empty. intros k0.
      apply map_lookup_filter_None. right. intros b0 Hb0. simpl.
      by apply (Hall k0 b0).
    + split_and!; try done. exists l. by apply elem_of_map_to_list in Hl.
Qed.


(** One round for the completed stay of user 8 at listing 2 adds a
    review. *)
Lemma sample_seed_review :
  create_reviews Sample.two_listings [7%N; 8%N] Sample.last_review_draw
  = (mkDB (listings Sample.two_listings) (bookings Sample.two_listings)
       (<[ 42%N := Review.mk 2 8 (Some 12%N) 3
                     "Great communication from the host. Check-in was smooth and easy." ]>
          (reviews Sample.two_listings)),
     Some 1%nat, false).
Proof. vm_compute. reflexivity. Qed.



(** The review added in the one-round run rests on the completed stay of
    user 8 at listing 2. *)
Lemma seeded_reviews_rest_on_bookings_witness :
  eligible_review Sample.two_listings
    (Review.mk 2 8 (Some 12%N) 3
       "Great communication from the host. Check-in was smooth and easy.").
Proof.
  destruct (seeded_reviews_rest_on_bookings _ _ _ _ _ _ 42%N
              (Review.mk 2 8 (Some 12%N) 3
                 "Great communication from the host. Check-in was smooth and easy.")
              sample_seed_review)
    as (_ & Hel & _); [reflexivity | reflexivity |].
  apply Hel.
  exists 12%N, (Sample.stay 2 8 (Sample.june 1) (Sample.june 3) completed).
  split; reflexivity.
Defined.

End seed_command.
